(** * BigqueryWorker: schema mapping, table naming, query text and
      table lifecycle of [bigquery_worker.py], as a shallow embedding.

    Layout of the development:
    - [Py]: the few pieces of Python the worker leans on (exceptions,
      [str.join], first-occurrence de-duplication);
    - [Schema]: [_extract_schema] and [_extract_dtypes];
    - [Names]: the f-strings that build table names;
    - [Sql]: [textwrap.dedent], and the filter clauses and query texts
      of the read, union and delete paths;
    - [Frame]: the date index, its sort and its label slices;
    - [Worker]: the methods of [BigqueryWorker] over a warehouse client,
      in a state-and-exception monad that records every client call;
    - [Mock]: an in-memory warehouse used to run the methods.
    The facts about each layer and the properties of the worker follow
    the definitions. *)

From Stdlib Require Import String Ascii List ZArith Lia DecimalString.
From stdpp Require Import base option strings list sorting gmap.

(* ===================================================================== *)
(** ** Python building blocks *)
(* ===================================================================== *)

Module Py.

(** Exceptions the worker can see.  [NotFound] and [Conflict] are the two
    classes imported from [google.cloud.exceptions]; [KeyError],
    [TypeError] and [AttributeError] are raised by Python itself (dict
    subscript, unhashable key, attribute of [None]); anything else the
    warehouse answers is a [WarehouseError]. *)
Inductive exn : Type :=
| NotFound
| Conflict
| KeyError (key : string)
| TypeError (msg : string)
| AttributeError (msg : string)
| WarehouseError (msg : string).

#[global] Instance exn_eq_dec : EqDecision exn.
Proof. solve_decision. Defined.

(** Outcome of a Python call: a value or a raised exception. *)
Inductive result (A : Type) : Type :=
| Ok (a : A)
| Raise (e : exn).
Arguments Ok {A} a.
Arguments Raise {A} e.

#[global] Instance result_ret : MRet result := fun _ a => Ok a.
#[global] Instance result_bind : MBind result := fun _ _ f r =>
  match r with
  | Ok a => f a
  | Raise e => Raise e
  end.

Definition is_raise {A} (r : result A) : Prop :=
  match r with Ok _ => False | Raise _ => True end.

(** [sep.join(parts)]. *)
Definition join (sep : string) (parts : list string) : string :=
  String.concat sep parts.

(** [f"'{x}'"]. *)
Definition quoted (x : string) : string := "'" +:+ x +:+ "'".

(** Keys of a dict filled by successive assignments, and the result of
    pandas [unique()]: each value once, in order of first occurrence. *)
Fixpoint unique (l : list string) : list string :=
  match l with
  | [] => []
  | x :: r => x :: filter (fun y => y ≠ x) (unique r)
  end.

End Py.
Export Py.

(* ===================================================================== *)
(** ** SchemaMapper: [_extract_schema] and [_extract_dtypes] *)
(* ===================================================================== *)

Module Schema.

(** Column types of a frame.  A numpy dtype is identified by its canonical
    name ([np.dtype('int64')]); [pd.DatetimeTZDtype] carries its unit and
    time zone; every other pandas extension type is named. *)
Inductive dtype : Type :=
| np_dtype (name : string)
| DatetimeTZDtype (unit tz : string)
| ExtensionDtype (name : string).

#[global] Instance dtype_eq_dec : EqDecision dtype.
Proof. solve_decision. Defined.

(** [bigquery.SchemaField(name, field_type)]. *)
Record SchemaField : Type := mkField {
  name : string;
  field_type : string
}.

#[global] Instance SchemaField_eq_dec : EqDecision SchemaField.
Proof. solve_decision. Defined.

(** A warehouse table as the worker sees it: its id and its schema. *)
Record Table : Type := mkTable {
  table_id : string;
  schema : list SchemaField
}.

#[global] Instance Table_eq_dec : EqDecision Table.
Proof. solve_decision. Defined.

(** [df.dtypes]: the column labels of the frame with their types, in
    column order.  Labels may repeat, as pandas allows. *)
Abbreviation dtypes_series := (list (string * dtype)).

(** [series[k]]: a scalar when the label occurs once, a sub-series of all
    entries carrying the label otherwise. *)
Inductive series_item : Type :=
| Scalar (d : dtype)
| SubSeries (ds : list dtype).

Definition series_getitem (s : dtypes_series) (k : string) : series_item :=
  match filter (fun p => p.1 = k) s with
  | [(_, d)] => Scalar d
  | l => SubSeries (l.*2)
  end.

(** [dict(df.dtypes)]: for each label of [keys()], [d[k] = series[k]]. *)
Definition dict_of_series (s : dtypes_series) : list (string * series_item) :=
  map (fun k => (k, series_getitem s k)) (unique (s.*1)).

(** The dict literal of [_extract_schema], built for the column at hand. *)
Definition schema_type_map (column_name : string) : list (dtype * SchemaField) :=
  [ (np_dtype "object", mkField column_name "STRING");
    (np_dtype "int32", mkField column_name "INTEGER");
    (np_dtype "int64", mkField column_name "INTEGER");
    (np_dtype "float64", mkField column_name "FLOAT");
    (np_dtype "datetime64[ns]", mkField column_name "DATE");
    (DatetimeTZDtype "ns" "UTC", mkField column_name "DATE") ].

(** Subscript of a dict held as an association list. *)
Fixpoint assoc {K V} `{EqDecision K} (k : K) (m : list (K * V)) : option V :=
  match m with
  | [] => None
  | (k', v) :: r => if decide (k = k') then Some v else assoc k r
  end.

Definition dtype_repr (d : dtype) : string :=
  match d with
  | np_dtype n => n
  | DatetimeTZDtype u tz => "datetime64[" +:+ u +:+ ", " +:+ tz +:+ "]"
  | ExtensionDtype n => n
  end.

(** [type_map[dtype]]: a sub-series is unhashable, an absent key raises
    [KeyError]. *)
Definition schema_lookup (column_name : string) (v : series_item) : result SchemaField :=
  match v with
  | SubSeries _ => Raise (TypeError "unhashable type: 'Series'")
  | Scalar d =>
      match assoc d (schema_type_map column_name) with
      | Some f => Ok f
      | None => Raise (KeyError (dtype_repr d))
      end
  end.

(** The loop of [_extract_schema] over the items of the dict. *)
Fixpoint extract_schema_loop (items : list (string * series_item)) : result (list SchemaField) :=
  match items with
  | [] => Ok []
  | (column_name, v) :: rest =>
      f ← schema_lookup column_name v;
      fs ← extract_schema_loop rest;
      Ok (f :: fs)
  end.

Definition _extract_schema (df_dtypes : dtypes_series) : result (list SchemaField) :=
  extract_schema_loop (dict_of_series df_dtypes).

(** The dict literal of [_extract_dtypes]. *)
Definition dtypes_type_map : list (string * dtype) :=
  [ ("STRING", np_dtype "object");
    ("INTEGER", np_dtype "int64");
    ("FLOAT", np_dtype "float64");
    ("DATE", np_dtype "datetime64[ns]") ].

(** The loop of [_extract_dtypes]: [dtypes[field.name] = type_map[...]]. *)
Fixpoint extract_dtypes_loop (fields : list SchemaField) (dtypes : gmap string dtype)
  : result (gmap string dtype) :=
  match fields with
  | [] => Ok dtypes
  | field :: rest =>
      match assoc (field_type field) dtypes_type_map with
      | Some d => extract_dtypes_loop rest (<[name field := d]> dtypes)
      | None => Raise (KeyError (field_type field))
      end
  end.

(** [_extract_dtypes(table)]; [table] is [None] when the existence probe
    found nothing, and [None.schema] raises. *)
Definition _extract_dtypes (table : option Table) : result (gmap string dtype) :=
  match table with
  | None => Raise (AttributeError "'NoneType' object has no attribute 'schema'")
  | Some t => extract_dtypes_loop (schema t) ∅
  end.

(** The four semantic classes of the data model, read off a local type. *)
Inductive semantic : Type := Text | Integer | Float | Date.

Definition semantic_of_dtype (d : dtype) : option semantic :=
  match d with
  | np_dtype n =>
      if decide (n = "object") then Some Text
      else if decide (n = "int32") then Some Integer
      else if decide (n = "int64") then Some Integer
      else if decide (n = "float64") then Some Float
      else if decide (n = "datetime64[ns]") then Some Date
      else None
  | DatetimeTZDtype _ _ => Some Date
  | ExtensionDtype _ => None
  end.

(** The warehouse type of a local type: the forward table read without
    the column name. *)
Definition forward (d : dtype) : option string :=
  field_type <$> assoc d (schema_type_map "").

(** A local type is supported when it is a key of the forward table. *)
Definition supported (d : dtype) : Prop :=
  is_Some (assoc d (schema_type_map "")).

#[global] Instance supported_dec d : Decision (supported d).
Proof. unfold supported. apply _. Defined.

End Schema.
Export Schema.

(* ===================================================================== *)
(** ** TableNameResolver: the f-strings that name tables *)
(* ===================================================================== *)

Module Names.

(** [itemcode, itemname, market = itemcode_info]; also one row of the
    reference frame [codeinfo_df], seen through the three columns the
    worker reads. *)
Record ItemcodeInfo : Type := mkItem {
  itemcode : string;
  itemname : string;
  market : string
}.

(** [f'{info_type}_info_{itemcode}_{market}'] of [_get_daily_info]. *)
Definition shard_name (info_type code mkt : string) : string :=
  info_type +:+ "_info_" +:+ code +:+ "_" +:+ mkt.

(** [f'daily_items_info_{itemcode}_{market}'] of [save_daily_item_info]. *)
Definition daily_item_table_name (i : ItemcodeInfo) : string :=
  "daily_items_info_" +:+ itemcode i +:+ "_" +:+ market i.

(** [f'daily_items_indicator_info_{itemcode}_{market}'] of
    [save_daily_item_indicator_info]. *)
Definition daily_item_indicator_table_name (i : ItemcodeInfo) : string :=
  "daily_items_indicator_info_" +:+ itemcode i +:+ "_" +:+ market i.

(** [f"{info_type}_{data['itemcode']}_{data['market']}"] of
    [save_daily_info_all]. *)
Definition union_member_name (info_type : string) (data : ItemcodeInfo) : string :=
  info_type +:+ "_" +:+ itemcode data +:+ "_" +:+ market data.

(** [f'{info_type}_all']. *)
Definition result_table_name (info_type : string) : string :=
  info_type +:+ "_all".

(** No underscore occurs in the string. *)
Fixpoint underscore_free (s : string) : bool :=
  match s with
  | EmptyString => true
  | String c r => if decide (c = "_"%char) then false else underscore_free r
  end.

End Names.
Export Names.

(* ===================================================================== *)
(** ** DateRangeQueryBuilder: filter clauses and query texts *)
(* ===================================================================== *)

Module Sql.

(** A calendar date, as the objects passed for [start_date]/[end_date]
    and as the cells of a DATE column. *)
Record date : Type := mkDate {
  year : nat;
  month : nat;
  day : nat
}.

#[global] Instance date_eq_dec : EqDecision date.
Proof. solve_decision. Defined.

Definition digits (n : nat) : string :=
  NilEmpty.string_of_uint (Nat.to_uint n).

Fixpoint zeros (n : nat) : string :=
  match n with
  | O => ""
  | S k => String "0" (zeros k)
  end.

Definition zfill (width : nat) (s : string) : string :=
  zeros (width - String.length s) +:+ s.

(** [x.format('YYYY-MM-DD')]. *)
Definition format_YYYY_MM_DD (x : date) : string :=
  zfill 4 (digits (year x)) +:+ "-" +:+ zfill 2 (digits (month x))
  +:+ "-" +:+ zfill 2 (digits (day x)).

Definition LF : ascii := "010"%char.
Definition nl : string := String LF "".

Fixpoint spaces (n : nat) : string :=
  match n with
  | O => ""
  | S k => String " " (spaces k)
  end.

(** *** [textwrap.dedent] *)

Definition is_blank_char (c : ascii) : bool :=
  bool_decide (c = " "%char) || bool_decide (c = "009"%char).

Fixpoint split_lines (s : string) : list string :=
  match s with
  | EmptyString => [""]
  | String c r =>
      if decide (c = LF) then "" :: split_lines r
      else match split_lines r with
           | [] => [String c ""]
           | l :: ls => String c l :: ls
           end
  end.

Fixpoint all_blank (s : string) : bool :=
  match s with
  | EmptyString => true
  | String c r => is_blank_char c && all_blank r
  end.

(** Lines made of spaces and tabs only are emptied. *)
Definition normalize_line (l : string) : string :=
  if all_blank l then "" else l.

Fixpoint leading_whitespace (s : string) : string :=
  match s with
  | EmptyString => ""
  | String c r => if is_blank_char c then String c (leading_whitespace r) else ""
  end.

Fixpoint common_prefix (a b : string) : string :=
  match a, b with
  | String x a', String y b' =>
      if decide (x = y) then String x (common_prefix a' b') else ""
  | _, _ => ""
  end.

(** The margin: the longest whitespace prefix shared by all lines that
    have a non-blank character ([None] when there is no such line). *)
Fixpoint margin_of (ls : list string) (margin : option string) : option string :=
  match ls with
  | [] => margin
  | l :: r =>
      if decide (l = "") then margin_of r margin
      else
        let indent := leading_whitespace l in
        margin_of r (Some (match margin with
                           | None => indent
                           | Some m => common_prefix m indent
                           end))
  end.

Fixpoint strip_prefix (p s : string) : string :=
  match p, s with
  | EmptyString, _ => s
  | String x p', String y s' => if decide (x = y) then strip_prefix p' s' else s
  | String _ _, EmptyString => s
  end.

(** Removes [p] from the start of [s] when [s] starts with [p]. *)
Definition remove_margin (p s : string) : string :=
  if String.prefix p s then strip_prefix p s else s.

Definition dedent (text : string) : string :=
  let ls := map normalize_line (split_lines text) in
  match margin_of ls None with
  | Some m => join nl (map (remove_margin m) ls)
  | None => join nl ls
  end.

(** The string spans one line: it holds no line feed. *)
Fixpoint no_newline (s : string) : bool :=
  match s with
  | EmptyString => true
  | String c r => if decide (c = LF) then false else no_newline r
  end.

(** The instrument names of a frame span one line each. *)
Definition one_line_names (codeinfo_df : option (list ItemcodeInfo)) : Prop :=
  match codeinfo_df with
  | Some df => Forall (fun r => no_newline (itemname r) = true) df
  | None => True
  end.

(** *** Read path: [get_daily_info_all] *)

(** [', '.join([f"'{x}'" for x in codeinfo_df['itemname']])]. *)
Definition read_item_names (codeinfo_df : list ItemcodeInfo) : string :=
  join ", " (map (fun r => quoted (itemname r)) codeinfo_df).

(** The list [wheres] after the three [if]s; [codeinfo_df.empty] is an
    empty row list, a date that is not [None] is truthy. *)
Definition read_wheres (codeinfo_df : option (list ItemcodeInfo))
    (start_date end_date : option date) : list string :=
  (match codeinfo_df with
   | Some ((_ :: _) as df) => ["itemname IN (" +:+ read_item_names df +:+ ")"]
   | _ => []
   end)
  ++ (match start_date with
      | Some d => ["date >= '" +:+ format_YYYY_MM_DD d +:+ "'"]
      | None => []
      end)
  ++ (match end_date with
      | Some d => ["date <= '" +:+ format_YYYY_MM_DD d +:+ "'"]
      | None => []
      end).

(** ['WHERE ' + where_clause if where_clause else '']. *)
Definition with_where (where_clause : string) : string :=
  if decide (where_clause = "") then "" else "WHERE " +:+ where_clause.

Definition read_where_clause (codeinfo_df : option (list ItemcodeInfo))
    (start_date end_date : option date) : string :=
  with_where (join " AND " (read_wheres codeinfo_df start_date end_date)).

(** The triple-quoted f-string of a SELECT, before [dedent]. *)
Definition select_template (table_name where_clause : string) : string :=
  nl +:+ spaces 12 +:+ "SELECT *" +:+ nl
  +:+ spaces 12 +:+ "FROM stock." +:+ table_name +:+ nl
  +:+ spaces 12 +:+ where_clause +:+ nl
  +:+ spaces 8.

Definition read_query (info_type : string) (codeinfo_df : option (list ItemcodeInfo))
    (start_date end_date : option date) : string :=
  dedent (select_template info_type (read_where_clause codeinfo_df start_date end_date)).

(** *** Union path: [save_daily_info_all] *)

Definition enumerate {A} (l : list A) : list (nat * A) :=
  zip (seq 0 (List.length l)) l.

(** The list comprehension over [enumerate([start_date, end_date])]. *)
Definition union_wheres (start_date end_date : option date) : list string :=
  flat_map (fun ix : nat * option date =>
              match ix.2 with
              | Some x => ["date " +:+ (if decide (ix.1 = 0) then ">=" else "<=")
                           +:+ " '" +:+ format_YYYY_MM_DD x +:+ "'"]
              | None => []
              end)
           (enumerate [start_date; end_date]).

Definition union_where_clause (start_date end_date : option date) : string :=
  with_where (join " AND " (union_wheres start_date end_date)).

(** ['UNION ALL'.join([dedent(...) for table_name in table_names])]. *)
Definition union_query (table_names : list string) (start_date end_date : option date) : string :=
  join "UNION ALL"
       (map (fun table_name =>
               dedent (select_template table_name (union_where_clause start_date end_date)))
            table_names).

(** *** Delete path: [delete_duplicated_rows] *)

(** [', '.join([f"'{x}'" for x in codeinfo_df['itemname'].unique().tolist()])]. *)
Definition delete_itemnames_str (codeinfo_df : list ItemcodeInfo) : string :=
  join ", " (map quoted (unique (map itemname codeinfo_df))).

Definition delete_itemnames_clause (codeinfo_df : option (list ItemcodeInfo)) : string :=
  match codeinfo_df with
  | Some df => "AND itemname in (" +:+ delete_itemnames_str df +:+ ")"
  | None => ""
  end.

(** The date clause of the DELETE statement. *)
Definition delete_date_clause (start_date_str : string) : string :=
  "WHERE date >= '" +:+ start_date_str +:+ "'".

Definition delete_template (table_name start_date_str itemnames_clause : string) : string :=
  nl +:+ spaces 12 +:+ "DELETE" +:+ nl
  +:+ spaces 12 +:+ "FROM stock." +:+ table_name +:+ nl
  +:+ spaces 12 +:+ delete_date_clause start_date_str +:+ nl
  +:+ spaces 16 +:+ itemnames_clause +:+ nl
  +:+ spaces 8.

Definition delete_query (table_name start_date_str : string)
    (codeinfo_df : option (list ItemcodeInfo)) : string :=
  dedent (delete_template table_name start_date_str (delete_itemnames_clause codeinfo_df)).

(** *** Last date: [get_last_date_of_daily_info] *)

(** [f"WHERE itemname in ({itemnames_str})"], the names being those of the
    delete path: [codeinfo_df['itemname'].unique().tolist()], quoted and
    joined. *)
Definition last_date_itemnames_clause (codeinfo_df : option (list ItemcodeInfo)) : string :=
  match codeinfo_df with
  | Some df => "WHERE itemname in (" +:+ delete_itemnames_str df +:+ ")"
  | None => ""
  end.

Definition last_date_template (table_name itemnames_clause : string) : string :=
  nl +:+ spaces 12 +:+ "SELECT MAX(date) lastdate" +:+ nl
  +:+ spaces 12 +:+ "FROM stock." +:+ table_name +:+ nl
  +:+ spaces 12 +:+ itemnames_clause +:+ nl
  +:+ spaces 8.

Definition last_date_query (table_name : string)
    (codeinfo_df : option (list ItemcodeInfo)) : string :=
  dedent (last_date_template table_name (last_date_itemnames_clause codeinfo_df)).

End Sql.
Export Sql.

(* ===================================================================== *)
(** ** Frames: cells, the date index, its sort and its label slices *)
(* ===================================================================== *)

Module Frame.

Inductive cell : Type :=
| Str (s : string)
| Int (z : Z)
| Day (d : date)
| Null.

#[global] Instance cell_eq_dec : EqDecision cell.
Proof. solve_decision. Defined.

(** A frame: its column labels with their types, and its rows, each row
    holding one cell per column, in column order. *)
Record DataFrame : Type := mkFrame {
  dtypes : dtypes_series;
  rows : list (list cell)
}.

(** A frame whose 'date' column became the index: the index value with
    the cells of the remaining columns. *)
Abbreviation indexed := (list (date * list cell)).

(** Chronological order of dates. *)
Definition date_leb (a b : date) : bool :=
  (year a <? year b)%nat
  || ((year a =? year b)%nat
      && ((month a <? month b)%nat
          || ((month a =? month b)%nat && (day a <=? day b)%nat))).

Definition date_ltb (a b : date) : bool := negb (date_leb b a).

Definition date_le (a b : date) : Prop := date_leb a b = true.
Definition date_lt (a b : date) : Prop := date_ltb a b = true.

(** Position of the first column carrying the label. *)
Fixpoint position (label : string) (labels : list string) : option nat :=
  match labels with
  | [] => None
  | l :: r => if decide (label = l) then Some 0 else S <$> position label r
  end.

(** The cell that becomes an index entry.  [_extract_dtypes] types a DATE
    column as datetime64[ns], so these cells are dates; a cell of another
    kind has no place in a date index. *)
Definition index_entry (c : cell) : result date :=
  match c with
  | Day d => Ok d
  | _ => Raise (TypeError "the date column holds a cell that is not a date")
  end.

Fixpoint index_rows (pos : nat) (rs : list (list cell)) : result indexed :=
  match rs with
  | [] => Ok []
  | r :: rest =>
      d ← index_entry (nth pos r Null);
      tl ← index_rows pos rest;
      Ok ((d, delete pos r) :: tl)
  end.

(** [df.set_index('date')]: [KeyError] when the frame has no such column. *)
Definition set_index_date (df : DataFrame) : result indexed :=
  match position "date" (dtypes df).*1 with
  | None => Raise (KeyError "date")
  | Some pos => index_rows pos (rows df)
  end.

(** [sort_index()]: rows in increasing order of the index; rows with equal
    index keep their relative order. *)
Fixpoint insert_sorted (r : date * list cell) (l : indexed) : indexed :=
  match l with
  | [] => [r]
  | x :: t => if date_leb r.1 x.1 then r :: l else x :: insert_sorted r t
  end.

Definition sort_index (l : indexed) : indexed := foldr insert_sorted [] l.

(** [.loc[start_date:]] on a sorted index: from the first row whose date
    is not before [start_date]. *)
Fixpoint loc_from (start_date : date) (l : indexed) : indexed :=
  match l with
  | [] => []
  | x :: t => if date_ltb x.1 start_date then loc_from start_date t else l
  end.

(** [.loc[:end_date]] on a sorted index: up to the last row whose date is
    not after [end_date]. *)
Fixpoint loc_to (end_date : date) (l : indexed) : indexed :=
  match l with
  | [] => []
  | x :: t => if date_leb x.1 end_date then x :: loc_to end_date t else []
  end.

(** The two guarded slices of [_get_daily_info], one after the other. *)
Definition slice (start_date end_date : option date) (l : indexed) : indexed :=
  let l := match start_date with Some s => loc_from s l | None => l end in
  match end_date with Some e => loc_to e l | None => l end.

(** Two rows in chronological order of their index. *)
Definition by_date (a b : date * list cell) : Prop := date_le a.1 b.1.

(** ['date' in df]. *)
Definition has_date_column (df : DataFrame) : bool :=
  bool_decide ("date" ∈ (dtypes df).*1).

(** [df['date'].min()] and [.max()] over the date cells of the column. *)
Definition date_cells (df : DataFrame) : list date :=
  match position "date" (dtypes df).*1 with
  | None => []
  | Some pos =>
      omap (fun r => match nth pos r Null with Day d => Some d | _ => None end) (rows df)
  end.

Definition date_min (l : list date) : option date :=
  foldr (fun d acc => match acc with
                      | None => Some d
                      | Some m => Some (if date_leb d m then d else m)
                      end) None l.

Definition date_max (l : list date) : option date :=
  foldr (fun d acc => match acc with
                      | None => Some d
                      | Some m => Some (if date_leb m d then d else m)
                      end) None l.

(** Optional bounds of a read. *)
Definition within (start_date end_date : option date) (d : date) : Prop :=
  (match start_date with Some s => date_le s d | None => True end)
  ∧ (match end_date with Some e => date_le d e | None => True end).

#[global] Instance date_le_dec (a b : date) : Decision (date_le a b).
Proof. unfold date_le. apply _. Defined.

#[global] Instance within_dec (start_date end_date : option date) (d : date) :
  Decision (within start_date end_date d).
Proof. unfold within, date_le. destruct start_date, end_date; apply _. Defined.

(** [df.lastdate[0]]: the column is an attribute of the frame, and [0] a
    label of its row index; a frame without the column raises
    [AttributeError], a frame without rows [KeyError]. *)
Definition first_cell (label : string) (df : DataFrame) : result cell :=
  match position label (dtypes df).*1 with
  | None =>
      Raise (AttributeError ("'DataFrame' object has no attribute '" +:+ label +:+ "'"))
  | Some pos =>
      match rows df with
      | [] => Raise (KeyError "0")
      | r :: _ => Ok (nth pos r Null)
      end
  end.

End Frame.
Export Frame.

(* ===================================================================== *)
(** ** The worker over a warehouse client *)
(* ===================================================================== *)

Module Worker.

Inductive WriteDisposition : Type :=
| WRITE_EMPTY
| WRITE_TRUNCATE
| WRITE_APPEND.

#[global] Instance WriteDisposition_eq_dec : EqDecision WriteDisposition.
Proof. solve_decision. Defined.

(** [bigquery.QueryJobConfig(write_disposition=...)] with its
    [destination]. *)
Record QueryJobConfig : Type := mkQueryConfig {
  query_write_disposition : WriteDisposition;
  destination : string
}.

(** [bigquery.LoadJobConfig(schema=..., write_disposition=...)]. *)
Record LoadJobConfig : Type := mkLoadConfig {
  load_schema : list SchemaField;
  load_write_disposition : WriteDisposition
}.

(** One entry per call made on [self.client] or on an object it
    returned. *)
Inductive call : Type :=
| CallGetTable (table_name : string)
| CallCreateTable (table : Table)
| CallListTables
| CallListRows (table : option Table)
| CallRowsToDataframe
| CallQuery (sql : string) (job_config : option QueryJobConfig)
| CallQueryToDataframe
| CallLoad (df : DataFrame) (table : Table) (job_config : LoadJobConfig)
| CallJobResult.

Definition is_query (c : call) : bool :=
  match c with CallQuery _ _ => true | _ => false end.

(** The messages passed to [self.logger.info]. *)
Inductive log_entry : Type :=
| LogSkip (table_id : string)
| LogSaved (table_id info_type : string)
| LogDateRange (start_date end_date : option date)
| LogDeleted (table_name start_date_str : string).

Section Methods.

(** The warehouse: its state [W] and the handles it gives out. *)
Context {W RowIterator Job : Type}.

(** The part of [bigquery.Client], and of the row iterators and jobs it
    returns, that the worker calls.  Every call may answer or raise, and
    may change the warehouse. *)
Record Client : Type := mkClient {
  client_get_table : string → W → result Table * W;
  client_create_table : Table → W → result Table * W;
  client_list_tables : W → result (list string) * W;
  client_list_rows : option Table → W → result RowIterator * W;
  rows_to_dataframe : RowIterator → gmap string dtype → W → result DataFrame * W;
  client_query : string → option QueryJobConfig → W → result Job * W;
  query_to_dataframe : Job → gmap string dtype → W → result DataFrame * W;
  client_load_table_from_dataframe :
    DataFrame → Table → LoadJobConfig → W → result Job * W;
  job_result : Job → W → result unit * W
}.

Variable client : Client.

(** What a method runs in: the warehouse, the calls made so far and the
    log. *)
Record world : Type := mkWorld {
  warehouse : W;
  calls : list call;
  log : list log_entry
}.

Definition M (A : Type) : Type := world → result A * world.

#[local] Instance M_ret : MRet M := fun _ a w => (Ok a, w).
#[local] Instance M_bind : MBind M := fun _ _ f m w =>
  match m w with
  | (Ok a, w') => f a w'
  | (Raise e, w') => (Raise e, w')
  end.

(** A client call: recorded, then answered by the warehouse. *)
Definition invoke {A} (c : call) (f : W → result A * W) : M A := fun w =>
  let (r, wh) := f (warehouse w) in
  (r, mkWorld wh (calls w ++ [c]) (log w)).

Definition logger_info (e : log_entry) : M unit := fun w =>
  (Ok tt, mkWorld (warehouse w) (calls w) (log w ++ [e])).

(** A computation that touches neither warehouse nor log. *)
Definition lift {A} (r : result A) : M A := fun w => (r, w).

(** [try: body except E: handler], [E] being the one exception class
    [caught]. *)
Definition try_except {A} (body : M A) (caught : exn) (handler : M A) : M A := fun w =>
  match body w with
  | (Raise e, w') => if decide (e = caught) then handler w' else (Raise e, w')
  | ok => ok
  end.

Definition get_table_if_exists (table_name : string) : M (option Table) :=
  try_except
    (table ← invoke (CallGetTable table_name) (client_get_table client table_name);
     mret (Some table))
    NotFound
    (mret None).

Definition get_itemcodes_info : M DataFrame :=
  table ← get_table_if_exists "itemcodes_info";
  it ← invoke (CallListRows table) (client_list_rows client table);
  dts ← lift (_extract_dtypes table);
  invoke CallRowsToDataframe (rows_to_dataframe client it dts).

Definition _save_info (info_type table_name : string) (df : DataFrame)
    (write_disposition : WriteDisposition) : M (option Table) :=
  schema ← lift (_extract_schema (dtypes df));
  table ← try_except
             (invoke (CallGetTable table_name) (client_get_table client table_name))
             NotFound
             (let table := mkTable table_name schema in
              invoke (CallCreateTable table) (client_create_table client table));
  let job_config := mkLoadConfig schema write_disposition in
  submitted ← try_except
                 (job ← invoke (CallLoad df table job_config)
                          (client_load_table_from_dataframe client df table job_config);
                  mret (Some job))
                 Conflict
                 (logger_info (LogSkip (table_id table));; mret None);
  match submitted with
  | None => mret None
  | Some job =>
      invoke CallJobResult (job_result client job);;
      logger_info (LogSaved (table_id table) info_type);;
      (if has_date_column df
       then logger_info (LogDateRange (date_min (date_cells df)) (date_max (date_cells df)))
       else mret tt);;
      mret (Some table)
  end.

Definition save_itemcodes_info (df : DataFrame) (write_disposition : WriteDisposition)
  : M (option Table) :=
  _save_info "itemcode" "itemcodes_info" df write_disposition.

Definition save_daily_item_info (itemcode_info : ItemcodeInfo) (df : DataFrame)
    (write_disposition : WriteDisposition) : M (option Table) :=
  _save_info "daily_items" (daily_item_table_name itemcode_info) df write_disposition.

Definition save_daily_item_indicator_info (itemcode_info : ItemcodeInfo) (df : DataFrame)
    (write_disposition : WriteDisposition) : M (option Table) :=
  _save_info "daily_items_indicator" (daily_item_indicator_table_name itemcode_info)
             df write_disposition.

Definition get_daily_info_all (info_type : string)
    (codeinfo_df : option (list ItemcodeInfo)) (start_date end_date : option date)
  : M DataFrame :=
  let query := read_query info_type codeinfo_df start_date end_date in
  table ← get_table_if_exists info_type;
  job ← invoke (CallQuery query None) (client_query client query None);
  dts ← lift (_extract_dtypes table);
  invoke CallQueryToDataframe (query_to_dataframe client job dts).

Definition save_daily_info_all (info_type : string) (codeinfo_df : list ItemcodeInfo)
    (write_disposition : WriteDisposition) (start_date end_date : option date)
  : M string :=
  all_table_names ← invoke CallListTables (client_list_tables client);
  let table_names := map (union_member_name info_type) codeinfo_df in
  let table_names := filter (fun x => x ∈ all_table_names) table_names in
  let query := union_query table_names start_date end_date in
  let job_config := mkQueryConfig write_disposition (result_table_name info_type) in
  job ← invoke (CallQuery query (Some job_config))
           (client_query client query (Some job_config));
  invoke CallJobResult (job_result client job);;
  mret (result_table_name info_type).

Definition _get_daily_info (info_type : string) (itemcode_info : ItemcodeInfo)
    (start_date end_date : option date) : M indexed :=
  table ← get_table_if_exists
            (shard_name info_type (itemcode itemcode_info) (market itemcode_info));
  it ← invoke (CallListRows table) (client_list_rows client table);
  dts ← lift (_extract_dtypes table);
  df ← invoke CallRowsToDataframe (rows_to_dataframe client it dts);
  daily_info ← lift (set_index_date df);
  let daily_info := sort_index daily_info in
  let daily_info :=
    match start_date with Some s => loc_from s daily_info | None => daily_info end in
  let daily_info :=
    match end_date with Some e => loc_to e daily_info | None => daily_info end in
  mret daily_info.

Definition get_daily_item_info (itemcode_info : ItemcodeInfo)
    (start_date end_date : option date) : M indexed :=
  _get_daily_info "daily_items" itemcode_info start_date end_date.

Definition get_daily_item_indicator_info (itemcode_info : ItemcodeInfo)
    (start_date end_date : option date) : M indexed :=
  _get_daily_info "daily_items_indicator" itemcode_info start_date end_date.

Definition delete_duplicated_rows (table_name start_date_str : string)
    (codeinfo_df : option (list ItemcodeInfo)) : M unit :=
  found ← get_table_if_exists table_name;
  match found with
  | None => mret tt
  | Some _ =>
      let sql := delete_query table_name start_date_str codeinfo_df in
      job ← invoke (CallQuery sql None) (client_query client sql None);
      invoke CallJobResult (job_result client job);;
      logger_info (LogDeleted table_name start_date_str)
  end.

Definition get_last_date_of_daily_info (table_name : string)
    (codeinfo_df : option (list ItemcodeInfo)) : M cell :=
  let sql := last_date_query table_name codeinfo_df in
  job ← invoke (CallQuery sql None) (client_query client sql None);
  df ← invoke CallQueryToDataframe
         (query_to_dataframe client job {["lastdate" := np_dtype "datetime64[ns]"]});
  lift (first_cell "lastdate" df).

End Methods.

Arguments Client : clear implicits.
Arguments world : clear implicits.

End Worker.
Export Worker.

(* ===================================================================== *)
(** ** An in-memory warehouse *)
(* ===================================================================== *)

Module Mock.

(** A table of the warehouse with the rows it holds. *)
Record stored : Type := mkStored {
  stored_table : Table;
  stored_rows : list (list cell)
}.

(** Where the warehouse reports that a WRITE_EMPTY load found rows in the
    target: when the job is submitted, or when its completion is awaited. *)
Inductive conflict_report : Type :=
| AtSubmission
| AtCompletion.

Fixpoint find_table (table_name : string) (w : list stored) : option stored :=
  match w with
  | [] => None
  | s :: r =>
      if decide (table_id (stored_table s) = table_name) then Some s
      else find_table table_name r
  end.

Fixpoint set_rows (table_name : string) (rs : list (list cell)) (w : list stored)
  : list stored :=
  match w with
  | [] => []
  | s :: r =>
      if decide (table_id (stored_table s) = table_name)
      then mkStored (stored_table s) rs :: r
      else s :: set_rows table_name rs r
  end.

Definition mock_get_table (table_name : string) (w : list stored)
  : result Table * list stored :=
  match find_table table_name w with
  | Some s => (Ok (stored_table s), w)
  | None => (Raise NotFound, w)
  end.

Definition mock_create_table (t : Table) (w : list stored)
  : result Table * list stored :=
  match find_table (table_id t) w with
  | Some _ => (Raise Conflict, w)
  | None => (Ok t, (w ++ [mkStored t []])%list)
  end.

Definition mock_list_tables (w : list stored) : result (list string) * list stored :=
  (Ok (map (fun s => table_id (stored_table s)) w), w).

Definition mock_list_rows (table : option Table) (w : list stored)
  : result stored * list stored :=
  match table with
  | None =>
      (Raise (TypeError "The table argument should be a table ID string, Table, or TableReference"), w)
  | Some t =>
      match find_table (table_id t) w with
      | Some s => (Ok s, w)
      | None => (Raise NotFound, w)
      end
  end.

Definition mock_rows_to_dataframe (it : stored) (dts : gmap string dtype)
    (w : list stored) : result DataFrame * list stored :=
  (Ok (mkFrame (map (fun f => (name f, default (np_dtype "object") (dts !! name f)))
                    (schema (stored_table it)))
               (stored_rows it)), w).

(** The mock accepts every query text and runs none of them: a query job
    completes without touching the tables and yields no rows. *)
Definition mock_query (sql : string) (job_config : option QueryJobConfig)
    (w : list stored) : result (result unit) * list stored :=
  (Ok (Ok tt), w).

Definition mock_query_to_dataframe (job : result unit) (dts : gmap string dtype)
    (w : list stored) : result DataFrame * list stored :=
  (Ok (mkFrame [] []), w).

(** A load job.  WRITE_EMPTY into a table that holds rows is the
    duplicate load; [report] says at which of the two calls the warehouse
    raises [Conflict] for it. *)
Definition mock_load (report : conflict_report) (df : DataFrame) (t : Table)
    (job_config : LoadJobConfig) (w : list stored)
  : result (result unit) * list stored :=
  match find_table (table_id t) w with
  | None => (Raise NotFound, w)
  | Some s =>
      match load_write_disposition job_config with
      | WRITE_TRUNCATE => (Ok (Ok tt), set_rows (table_id t) (rows df) w)
      | WRITE_APPEND =>
          (Ok (Ok tt), set_rows (table_id t) (stored_rows s ++ rows df)%list w)
      | WRITE_EMPTY =>
          match stored_rows s with
          | [] => (Ok (Ok tt), set_rows (table_id t) (rows df) w)
          | _ :: _ =>
              match report with
              | AtSubmission => (Raise Conflict, w)
              | AtCompletion => (Ok (Raise Conflict), w)
              end
          end
      end
  end.

Definition mock_job_result (job : result unit) (w : list stored)
  : result unit * list stored :=
  (job, w).

Definition mock_client (report : conflict_report)
  : Client (list stored) stored (result unit) :=
  mkClient mock_get_table mock_create_table mock_list_tables mock_list_rows
           mock_rows_to_dataframe mock_query mock_query_to_dataframe
           (mock_load report) mock_job_result.

(** A fresh run: nothing called, nothing logged. *)
Definition start (w : list stored) : world (list stored) :=
  mkWorld w [] [].

(** Ten daily rows, 2024-01-01 to 2024-01-10, stored out of order. *)
Definition jan (d : nat) : date := mkDate 2024 1 d.

Definition daily_schema : list SchemaField :=
  [mkField "date" "DATE"; mkField "close" "INTEGER"].

Definition daily_dtypes : dtypes_series :=
  [("date", np_dtype "datetime64[ns]"); ("close", np_dtype "int64")].

Definition daily_row (d : nat) : list cell := [Day (jan d); Int (Z.of_nat (100 + d))].

Definition ten_days : list (list cell) :=
  map daily_row [3; 1; 10; 7; 2; 9; 4; 6; 5; 8].

Definition samsung : ItemcodeInfo := mkItem "005930" "Samsung" "KOSPI".

Definition shard_with_ten_days : list stored :=
  [mkStored (mkTable "daily_items_info_005930_KOSPI" daily_schema) ten_days].

Definition five_days : DataFrame :=
  mkFrame daily_dtypes (map daily_row [1; 2; 3; 4; 5]).

(** A frame with the six supported local types. *)
Definition all_supported_columns : dtypes_series :=
  [ ("itemname", np_dtype "object");
    ("volume", np_dtype "int32");
    ("amount", np_dtype "int64");
    ("close", np_dtype "float64");
    ("date", np_dtype "datetime64[ns]");
    ("updated", DatetimeTZDtype "ns" "UTC") ].

(** A frame with a boolean column between two supported ones. *)
Definition frame_with_bool : dtypes_series :=
  [ ("date", np_dtype "datetime64[ns]");
    ("halted", np_dtype "bool");
    ("close", np_dtype "float64") ].

(** The frame the in-memory warehouse builds from the rows [rs] of a table
    with schema [sch], read with the local types [dts]. *)
Definition fetched (sch : list SchemaField) (dts : gmap string dtype)
    (rs : list (list cell)) : DataFrame :=
  mkFrame (map (fun f => (name f, default (np_dtype "object") (dts !! name f))) sch) rs.

(** A warehouse that refuses every request, as for missing permissions. *)
Definition forbidden : exn := WarehouseError "403 Forbidden".

Definition denying_client : Client unit unit unit :=
  mkClient (fun _ w => (Raise forbidden, w)) (fun _ w => (Raise forbidden, w))
           (fun w => (Raise forbidden, w)) (fun _ w => (Raise forbidden, w))
           (fun _ _ w => (Raise forbidden, w)) (fun _ _ w => (Raise forbidden, w))
           (fun _ _ w => (Raise forbidden, w)) (fun _ _ _ w => (Raise forbidden, w))
           (fun _ w => (Raise forbidden, w)).

(** The in-memory warehouse when another writer creates the table between
    the lookup and the creation: [create_table] answers [Conflict]. *)
Definition racing_client : Client (list stored) stored (result unit) :=
  mkClient mock_get_table (fun _ w => (Raise Conflict, w)) mock_list_tables
           mock_list_rows mock_rows_to_dataframe mock_query mock_query_to_dataframe
           (mock_load AtSubmission) mock_job_result.

(** The in-memory warehouse when every query yields the frame [answer]. *)
Definition answering_client (answer : DataFrame)
  : Client (list stored) stored (result unit) :=
  mkClient mock_get_table mock_create_table mock_list_tables
           mock_list_rows mock_rows_to_dataframe mock_query
           (fun _ _ w => (Ok answer, w))
           (mock_load AtSubmission) mock_job_result.

(** The frame of a MAX(date) query whose answer is 2024-01-10. *)
Definition last_date_answer : DataFrame :=
  mkFrame [("lastdate", np_dtype "datetime64[ns]")] [[Day (mkDate 2024 1 10)]].

(** A shard with a BOOLEAN field, and one without a 'date' column. *)
Definition listed_table : list stored :=
  [mkStored (mkTable "daily_items_info_005930_KOSPI"
               [mkField "date" "DATE"; mkField "halted" "BOOLEAN"])
            [[Day (jan 1); Null]]].

Definition undated_table : list stored :=
  [mkStored (mkTable "daily_items_info_005930_KOSPI"
               [mkField "day" "DATE"; mkField "close" "INTEGER"])
            [[Day (jan 1); Int 101]]].

(** A shard whose table was created with a single STRING column. *)
Definition other_schema_table : list stored :=
  [mkStored (mkTable "daily_items_info_005930_KOSPI" [mkField "memo" "STRING"]) []].

Definition kakao : ItemcodeInfo := mkItem "035720" "Kakao" "KOSPI".
Definition naver : ItemcodeInfo := mkItem "035420" "Naver" "KOSPI".

(** A warehouse holding the shards of two instruments. *)
Definition two_shards : list stored :=
  [mkStored (mkTable "daily_items_info_005930_KOSPI" daily_schema) [daily_row 1];
   mkStored (mkTable "daily_items_info_035720_KOSPI" daily_schema) [daily_row 2]].

(** A shard with two rows on one date, between 2024-01-02 and
    2024-01-04. *)
Definition shard_with_repeated_day : list stored :=
  [mkStored (mkTable "daily_items_info_005930_KOSPI" daily_schema)
     [daily_row 4; [Day (jan 3); Int 7]; daily_row 2; [Day (jan 3); Int 8]]].

(** A reference frame with the instruments' codes, names and listing
    sizes. *)
Definition itemcodes_frame : DataFrame :=
  mkFrame [("itemcode", np_dtype "object"); ("itemname", np_dtype "object");
           ("shares", np_dtype "int32"); ("listed", DatetimeTZDtype "ns" "UTC")]
          [[Str "005930"; Str "Samsung"; Int 5969; Day (mkDate 1975 6 11)];
           [Str "035720"; Str "Kakao"; Int 444; Day (mkDate 2017 7 10)]].

End Mock.
Export Mock.

(* ===================================================================== *)
(** ** Facts about the Python building blocks and the schema mapper *)
(* ===================================================================== *)

Module PyFacts.

Lemma filter_all {A} (P : A → Prop) `{∀ x, Decision (P x)} (l : list A) :
  Forall P l → filter P l = l.
Proof.
  induction 1 as [|x l Hx _ IH]; [done|].
  by rewrite filter_cons_True, IH.
Qed.

Lemma elem_of_unique (x : string) (l : list string) : x ∈ unique l ↔ x ∈ l.
Proof.
  induction l as [|y l IH]; simpl; [done|].
  rewrite !elem_of_cons, list_elem_of_filter, IH.
  destruct (decide (x = y)); tauto.
Qed.

Lemma unique_NoDup_id (l : list string) : NoDup l → unique l = l.
Proof.
  induction 1 as [|x l Hx _ IH]; simpl; [done|].
  rewrite IH. f_equal. apply filter_all.
  apply Forall_forall. intros y Hy Heq. by subst y.
Qed.

Lemma NoDup_unique (l : list string) : NoDup (unique l).
Proof.
  induction l as [|x l IH]; simpl; [constructor|].
  apply NoDup_cons. split.
  - rewrite list_elem_of_filter. by intros [? _].
  - by apply NoDup_filter.
Qed.

End PyFacts.

Module SchemaFacts.
Import PyFacts.


(** With distinct labels, [series[k]] is the scalar stored under [k]. *)
Lemma series_getitem_scalar (s : dtypes_series) (k : string) (d : dtype) :
  NoDup s.*1 → (k, d) ∈ s → series_getitem s k = Scalar d.
Proof.
  intros Hnd Hin. unfold series_getitem.
  assert (filter (λ p : string * dtype, p.1 = k) s = [(k, d)]) as ->; [|done].
  induction s as [|[k' d'] s IH]; [by apply elem_of_nil in Hin|].
  simpl in Hnd. apply NoDup_cons in Hnd as [Hk' Hnd].
  apply elem_of_cons in Hin as [[= <- <-]|Hin].
  - rewrite filter_cons_True by done. f_equal.
    assert (Forall (λ p : string * dtype, ¬ p.1 = k) s) as Hall.
    { apply Forall_forall. intros [k2 d2] H2 Heq. simpl in Heq. subst k2.
      apply Hk'. apply list_elem_of_fmap. by exists (k, d2). }
    clear -Hall. induction Hall as [|x l Hx _ IH]; [done|].
    by rewrite filter_cons_False.
  - rewrite filter_cons_False; [by apply IH|].
    simpl. intros ->. apply Hk'. apply list_elem_of_fmap. by exists (k, d).
Qed.

(** With distinct labels, the dict has one scalar item per column, in
    column order. *)
Lemma dict_of_series_NoDup (s : dtypes_series) :
  NoDup s.*1 → dict_of_series s = map (fun p => (p.1, Scalar p.2)) s.
Proof.
  intros Hnd. unfold dict_of_series. rewrite unique_NoDup_id by done.
  assert (∀ l : dtypes_series, l ⊆ s →
    map (λ k, (k, series_getitem s k)) l.*1 = map (λ p, (p.1, Scalar p.2)) l) as Hgen.
  { induction l as [|[k d] l IH]; intros Hsub; simpl; [done|].
    rewrite (series_getitem_scalar s k d); [|done|apply Hsub; left].
    f_equal. apply IH. intros x Hx. apply Hsub. by right. }
  by apply Hgen.
Qed.

Lemma assoc_schema_type_map (c : string) (d : dtype) :
  assoc d (schema_type_map c) = mkField c <$> forward d.
Proof.
  unfold forward, schema_type_map. simpl.
  repeat (case_decide; [done|]). done.
Qed.

Lemma supported_forward (d : dtype) : supported d ↔ is_Some (forward d).
Proof.
  unfold supported, forward. split; intros [x Hx].
  - rewrite Hx. by eexists.
  - destruct (assoc d (schema_type_map "")); [by eexists|done].
Qed.

(** The six keys of the forward table, their warehouse type, the local
    type read back, and the semantic class, which is the same at both
    ends. *)
Lemma forward_backward (d : dtype) (ft : string) :
  forward d = Some ft →
  ∃ sem d',
    semantic_of_dtype d = Some sem ∧
    assoc ft dtypes_type_map = Some d' ∧
    semantic_of_dtype d' = Some sem ∧
    match sem with
    | Text => ft = "STRING" ∧ d' = np_dtype "object"
    | Integer => ft = "INTEGER" ∧ d' = np_dtype "int64"
    | Float => ft = "FLOAT" ∧ d' = np_dtype "float64"
    | Date => ft = "DATE" ∧ d' = np_dtype "datetime64[ns]"
    end.
Proof.
  intros H. unfold forward, schema_type_map in H. simpl in H.
  repeat match type of H with
         | context [decide (d = ?x)] =>
             destruct (decide (d = x)) as [->|?];
             [injection H as <-; vm_compute; do 2 eexists;
              split; [reflexivity|split; [reflexivity|split; [reflexivity|split; reflexivity]]]|]
         end.
  discriminate.
Qed.

Lemma schema_lookup_scalar (c : string) (d : dtype) :
  schema_lookup c (Scalar d) =
  match forward d with
  | Some ft => Ok (mkField c ft)
  | None => Raise (KeyError (dtype_repr d))
  end.
Proof.
  unfold schema_lookup. rewrite assoc_schema_type_map.
  by destruct (forward d).
Qed.

Lemma extract_schema_loop_cons (c : string) (v : series_item)
    (rest : list (string * series_item)) :
  extract_schema_loop ((c, v) :: rest) =
  (f ← schema_lookup c v; fs ← extract_schema_loop rest; Ok (f :: fs)).
Proof. reflexivity. Qed.

Lemma extract_schema_scalars (s : dtypes_series) :
  Forall (λ p, supported p.2) s →
  ∃ sch, extract_schema_loop (map (λ p, (p.1, Scalar p.2)) s) = Ok sch ∧
         Forall2 (λ p f, name f = p.1 ∧ forward p.2 = Some (field_type f)) s sch.
Proof.
  induction 1 as [|[c d] s Hd _ (sch & Hsch & Hall)].
  - exists []. by split.
  - apply supported_forward in Hd as [ft Hft]. simpl in Hft.
    change (map _ ((c, d) :: s))
      with ((c, Scalar d) :: map (λ p : string * dtype, (p.1, Scalar p.2)) s).
    rewrite extract_schema_loop_cons, schema_lookup_scalar, Hft, Hsch.
    exists (mkField c ft :: sch). split; [done|]. by constructor.
Qed.

Lemma extract_dtypes_loop_cons (f : SchemaField) (rest : list SchemaField)
    (acc : gmap string dtype) :
  extract_dtypes_loop (f :: rest) acc =
  match assoc (field_type f) dtypes_type_map with
  | Some d => extract_dtypes_loop rest (<[name f := d]> acc)
  | None => Raise (KeyError (field_type f))
  end.
Proof. reflexivity. Qed.

(** The backward loop over the schema of a frame with supported types:
    every field is entered under its column name; a name outside the
    frame keeps what the accumulator held. *)
Lemma extract_dtypes_loop_ok (s : dtypes_series) (sch : list SchemaField)
    (acc : gmap string dtype) :
  Forall2 (λ p f, name f = p.1 ∧ forward p.2 = Some (field_type f)) s sch →
  ∃ dts, extract_dtypes_loop sch acc = Ok dts ∧
    (∀ c, c ∉ s.*1 → dts !! c = acc !! c) ∧
    (NoDup s.*1 → ∀ c d, (c, d) ∈ s →
       ∃ ft, forward d = Some ft ∧ mkField c ft ∈ sch ∧
             dts !! c = assoc ft dtypes_type_map).
Proof.
  intros Hall. revert acc.
  induction Hall as [|[c d] f s sch [Hname Hfw] Hall IH]; intros acc.
  - exists acc. split; [done|]. split; [done|].
    intros _ c d Hin. by apply elem_of_nil in Hin.
  - simpl in Hname, Hfw.
    destruct (forward_backward d _ Hfw) as (sem & d' & _ & Hback & _).
    rewrite extract_dtypes_loop_cons, Hback.
    destruct (IH (<[name f := d']> acc)) as (dts & Hdts & Hout & Hin).
    exists dts. split; [done|]. split.
    + intros c' Hc'. rewrite Hout.
      * rewrite lookup_insert_ne; [done|]. rewrite Hname. intros ->.
        apply Hc'. left.
      * intros Hc''. apply Hc'. by right.
    + intros Hnd c' d0 Hmem.
      rewrite fmap_cons in Hnd. apply NoDup_cons in Hnd as [Hc Hnd].
      simpl in Hc.
      apply elem_of_cons in Hmem as [Heq|Hmem].
      * injection Heq as -> ->. exists (field_type f). split; [done|]. split.
        -- destruct f as [n t]. simpl in *. subst n. left.
        -- rewrite Hout by done. rewrite Hname, lookup_insert_eq. done.
      * destruct (Hin Hnd c' d0 Hmem) as (ft & Hft & Hf & Hl).
        exists ft. split; [done|]. split; [by right|done].
Qed.

(** An item whose lookup raises makes the whole loop raise. *)
Lemma extract_schema_loop_raises (items : list (string * series_item))
    (c : string) (v : series_item) :
  (c, v) ∈ items → is_raise (schema_lookup c v) →
  is_raise (extract_schema_loop items).
Proof.
  induction items as [|[c0 v0] items IH]; intros Hin Hr.
  - by apply elem_of_nil in Hin.
  - rewrite extract_schema_loop_cons.
    apply elem_of_cons in Hin as [Heq|Hin].
    + injection Heq as <- <-. by destruct (schema_lookup c v).
    + destruct (schema_lookup c0 v0); [|done]. simpl.
      specialize (IH Hin Hr). by destruct (extract_schema_loop items).
Qed.

(** [series[c]] of a column with an unsupported type: its lookup raises,
    whether the label repeats or not. *)
Lemma unsupported_item_raises (s : dtypes_series) (c : string) (d : dtype) :
  (c, d) ∈ s → ¬ supported d →
  is_raise (schema_lookup c (series_getitem s c)).
Proof.
  intros Hin Hns. unfold series_getitem.
  assert ((c, d) ∈ filter (λ p : string * dtype, p.1 = c) s) as Hf.
  { apply list_elem_of_filter. by split. }
  destruct (filter (λ p : string * dtype, p.1 = c) s) as [|[k0 d0] [|p l]];
    [by apply elem_of_nil in Hf| |done].
  apply list_elem_of_singleton in Hf. injection Hf as <- <-.
  rewrite schema_lookup_scalar.
  destruct (forward d) eqn:Hfw; [|done].
  exfalso. apply Hns, supported_forward. by eexists.
Qed.

(** Over scalar items the loop stops at the first unsupported type, with
    the [KeyError] of the dict subscript. *)
Lemma extract_schema_scalars_raise (s : dtypes_series) :
  Exists (λ p, ¬ supported p.2) s →
  ∃ c d, (c, d) ∈ s ∧ ¬ supported d ∧
    extract_schema_loop (map (λ p, (p.1, Scalar p.2)) s)
    = Raise (KeyError (dtype_repr d)).
Proof.
  induction s as [|[c d] s IH]; intros Hex; [by apply Exists_nil in Hex|].
  change (map _ ((c, d) :: s))
    with ((c, Scalar d) :: map (λ p : string * dtype, (p.1, Scalar p.2)) s).
  rewrite extract_schema_loop_cons, schema_lookup_scalar.
  destruct (forward d) as [ft|] eqn:Hfw.
  - apply Exists_cons in Hex as [Hhd|Htl].
    + exfalso. apply Hhd, supported_forward. by eexists.
    + destruct (IH Htl) as (c' & d' & Hin & Hns & Hr).
      exists c', d'. split; [by right|]. split; [done|].
      simpl. by rewrite Hr.
  - exists c, d. split; [left|]. split; [|done].
    intros Hs%supported_forward. rewrite Hfw in Hs. by destruct Hs.
Qed.

End SchemaFacts.

(* ===================================================================== *)
(** ** The schema mapper: round trip and strictness *)
(* ===================================================================== *)

(** C1. Round-trip law. For a frame with distinct column labels whose
    types are all keys of the forward table, [_extract_schema] returns a
    schema with one field per column, [_extract_dtypes] on the table
    created with that schema returns a local type for every column, and
    the semantic class of each column is the same at both ends, along
    Text -> STRING -> object, Integer -> INTEGER -> int64,
    Float -> FLOAT -> float64, Date -> DATE -> datetime64[ns]. *)
Theorem schema_round_trip (df_dtypes : dtypes_series) (table_name : string) :
  NoDup df_dtypes.*1 →
  Forall (λ p, supported p.2) df_dtypes →
  ∃ sch dts,
    _extract_schema df_dtypes = Ok sch ∧
    _extract_dtypes (Some (mkTable table_name sch)) = Ok dts ∧
    map name sch = df_dtypes.*1 ∧
    ∀ c d, (c, d) ∈ df_dtypes →
      ∃ sem ft d',
        semantic_of_dtype d = Some sem ∧
        mkField c ft ∈ sch ∧
        dts !! c = Some d' ∧
        semantic_of_dtype d' = Some sem ∧
        match sem with
        | Text => ft = "STRING" ∧ d' = np_dtype "object"
        | Integer => ft = "INTEGER" ∧ d' = np_dtype "int64"
        | Float => ft = "FLOAT" ∧ d' = np_dtype "float64"
        | Date => ft = "DATE" ∧ d' = np_dtype "datetime64[ns]"
        end.
Proof.
  intros Hnd Hsup.
  destruct (SchemaFacts.extract_schema_scalars df_dtypes Hsup) as (sch & Hsch & Hall).
  destruct (SchemaFacts.extract_dtypes_loop_ok df_dtypes sch ∅ Hall)
    as (dts & Hdts & _ & Hin).
  exists sch, dts. split.
  { unfold _extract_schema. by rewrite SchemaFacts.dict_of_series_NoDup. }
  split; [done|]. split.
  { clear -Hall. induction Hall as [|p f s sch [Hn _] _ IH]; [done|].
    simpl. by rewrite Hn, IH. }
  intros c d Hcd.
  destruct (Hin Hnd c d Hcd) as (ft & Hfw & Hf & Hl).
  destruct (SchemaFacts.forward_backward d ft Hfw) as (sem & d' & Hs & Hb & Hs' & Hm).
  exists sem, ft, d'. rewrite Hl. done.
Qed.

Lemma schema_round_trip_witness :
  ∃ sch dts,
    _extract_schema all_supported_columns = Ok sch ∧
    _extract_dtypes (Some (mkTable "daily_items_info_005930_KOSPI" sch)) = Ok dts ∧
    map name sch = all_supported_columns.*1 ∧
    ∀ c d, (c, d) ∈ all_supported_columns →
      ∃ sem ft d',
        semantic_of_dtype d = Some sem ∧
        mkField c ft ∈ sch ∧
        dts !! c = Some d' ∧
        semantic_of_dtype d' = Some sem ∧
        match sem with
        | Text => ft = "STRING" ∧ d' = np_dtype "object"
        | Integer => ft = "INTEGER" ∧ d' = np_dtype "int64"
        | Float => ft = "FLOAT" ∧ d' = np_dtype "float64"
        | Date => ft = "DATE" ∧ d' = np_dtype "datetime64[ns]"
        end.
Proof.
  apply (schema_round_trip all_supported_columns "daily_items_info_005930_KOSPI").
  - compute_done.
  - compute_done.
Defined.

(** C4. Strictness. A frame with a column whose local type is not a key
    of the forward table gets no schema: [_extract_schema] raises, so the
    column is neither dropped nor given another warehouse type; when the
    column labels are distinct the exception is the [KeyError] of the
    dict subscript, for the first such column. *)
Theorem unmapped_dtype_raises (df_dtypes : dtypes_series) (c : string) (d : dtype) :
  (c, d) ∈ df_dtypes → ¬ supported d →
  is_raise (_extract_schema df_dtypes) ∧
  (NoDup df_dtypes.*1 →
   ∃ c' d', (c', d') ∈ df_dtypes ∧ ¬ supported d' ∧
     _extract_schema df_dtypes = Raise (KeyError (dtype_repr d'))).
Proof.
  intros Hin Hns. split.
  - unfold _extract_schema.
    apply (SchemaFacts.extract_schema_loop_raises _ c (series_getitem df_dtypes c)).
    + unfold dict_of_series.
      apply list_elem_of_In, in_map_iff. exists c. split; [done|].
      apply list_elem_of_In, PyFacts.elem_of_unique, list_elem_of_fmap.
      by exists (c, d).
    + by apply (SchemaFacts.unsupported_item_raises _ _ d).
  - intros Hnd. unfold _extract_schema.
    rewrite SchemaFacts.dict_of_series_NoDup by done.
    apply SchemaFacts.extract_schema_scalars_raise.
    apply Exists_exists. by exists (c, d).
Qed.

Lemma unmapped_dtype_raises_witness :
  is_raise (_extract_schema frame_with_bool) ∧
  (NoDup frame_with_bool.*1 →
   ∃ c' d', (c', d') ∈ frame_with_bool ∧ ¬ supported d' ∧
     _extract_schema frame_with_bool = Raise (KeyError (dtype_repr d'))).
Proof.
  apply (unmapped_dtype_raises frame_with_bool "halted" (np_dtype "bool")).
  - compute_done.
  - compute_done.
Defined.


(* ===================================================================== *)
(** ** Table names *)
(* ===================================================================== *)

Module NameFacts.

#[local] Arguments String.append : simpl nomatch.

(** The first underscore after an underscore-free code splits the rest of
    the name in one way only. *)
Lemma code_market_inj (c1 c2 m1 m2 : string) :
  underscore_free c1 = true → underscore_free c2 = true →
  c1 +:+ "_" +:+ m1 = c2 +:+ "_" +:+ m2 → c1 = c2 ∧ m1 = m2.
Proof.
  revert c2. induction c1 as [|a c1 IH]; intros [|b c2]; simpl.
  - intros _ _ [= ->]. done.
  - intros _ Hb [= <- _]. by destruct (decide ("_"%char = "_"%char)).
  - intros Ha _ [= -> _]. by destruct (decide ("_"%char = "_"%char)).
  - intros Ha Hb [= -> Heq].
    destruct (decide (b = "_"%char)); [done|].
    destruct (IH c2 Ha Hb Heq) as [-> ->]. done.
Qed.

Lemma shard_name_inj (t1 t2 c1 c2 m1 m2 : string) :
  t1 ∈ ["daily_items"; "daily_items_indicator"] →
  t2 ∈ ["daily_items"; "daily_items_indicator"] →
  underscore_free c1 = true → underscore_free c2 = true →
  shard_name t1 c1 m1 = shard_name t2 c2 m2 →
  t1 = t2 ∧ c1 = c2 ∧ m1 = m2.
Proof.
  intros Ht1 Ht2 Hc1 Hc2. unfold shard_name.
  repeat (apply elem_of_cons in Ht1 as [->|Ht1]);
    [| |by apply elem_of_nil in Ht1];
    (repeat (apply elem_of_cons in Ht2 as [->|Ht2]);
       [| |by apply elem_of_nil in Ht2]);
    simpl; intros Heq; try discriminate;
    injection Heq as Heq;
    destruct (code_market_inj _ _ _ _ Hc1 Hc2 Heq) as [-> ->]; done.
Qed.

End NameFacts.

(** C8, as stated, fails: an underscore inside the code or the market
    moves the boundary between the two, and two triples share a name. *)
Lemma shard_name_collision :
  ("daily_items", "A_B", "C") ≠ ("daily_items", "A", "B_C")
  ∧ shard_name "daily_items" "A_B" "C" = shard_name "daily_items" "A" "B_C".
Proof. split; [discriminate|reflexivity]. Qed.

(** C8, amended. For the two info types the worker passes
    ('daily_items', 'daily_items_indicator') and codes without an
    underscore, distinct triples (info_type, code, market) get distinct
    shard names; the names of the two save methods are these shard
    names. *)
Theorem shard_name_distinct (t1 t2 c1 c2 m1 m2 : string) :
  t1 ∈ ["daily_items"; "daily_items_indicator"] →
  t2 ∈ ["daily_items"; "daily_items_indicator"] →
  underscore_free c1 = true → underscore_free c2 = true →
  (t1, c1, m1) ≠ (t2, c2, m2) →
  shard_name t1 c1 m1 ≠ shard_name t2 c2 m2
  ∧ daily_item_table_name (mkItem c1 "" m1) = shard_name "daily_items" c1 m1
  ∧ daily_item_indicator_table_name (mkItem c1 "" m1)
    = shard_name "daily_items_indicator" c1 m1.
Proof.
  intros Ht1 Ht2 Hc1 Hc2 Hne. split; [|by split].
  intros Heq. apply Hne.
  destruct (NameFacts.shard_name_inj _ _ _ _ _ _ Ht1 Ht2 Hc1 Hc2 Heq) as (-> & -> & ->).
  done.
Qed.

Lemma shard_name_distinct_witness :
  shard_name "daily_items" "005930" "KOSPI"
  ≠ shard_name "daily_items_indicator" "005930" "KOSPI"
  ∧ daily_item_table_name (mkItem "005930" "" "KOSPI")
    = shard_name "daily_items" "005930" "KOSPI"
  ∧ daily_item_indicator_table_name (mkItem "005930" "" "KOSPI")
    = shard_name "daily_items_indicator" "005930" "KOSPI".
Proof.
  apply (shard_name_distinct "daily_items" "daily_items_indicator"
           "005930" "005930" "KOSPI" "KOSPI").
  - compute_done.
  - compute_done.
  - reflexivity.
  - reflexivity.
  - compute_done.
Defined.

(* ===================================================================== *)
(** ** Filter clauses of the three paths *)
(* ===================================================================== *)

Module SqlFacts.

#[local] Arguments String.append : simpl nomatch.

Lemma append_assoc (a b c : string) : (a +:+ b) +:+ c = a +:+ b +:+ c.
Proof. induction a as [|x a IH]; simpl; [done|]. by rewrite IH. Qed.

Lemma with_where_empty : with_where "" = "".
Proof. reflexivity. Qed.

Lemma with_where_cons (c : ascii) (s : string) :
  with_where (String c s) = "WHERE " +:+ String c s.
Proof. unfold with_where. by destruct (decide (String c s = "")). Qed.

(** The date clauses of the union path, case by case. *)
Lemma union_wheres_cases (start_date end_date : option date) :
  union_wheres start_date end_date =
  (match start_date with
   | Some d => ["date >= '" +:+ format_YYYY_MM_DD d +:+ "'"]
   | None => []
   end
   ++ match end_date with
      | Some d => ["date <= '" +:+ format_YYYY_MM_DD d +:+ "'"]
      | None => []
      end)%list.
Proof. by destruct start_date, end_date. Qed.

Lemma read_wheres_no_names (start_date end_date : option date) :
  read_wheres None start_date end_date = union_wheres start_date end_date
  ∧ read_wheres (Some []) start_date end_date = union_wheres start_date end_date.
Proof. rewrite union_wheres_cases. by destruct start_date, end_date. Qed.

(** *** Lines of a text *)

Lemma no_newline_app (a b : string) :
  no_newline (a +:+ b) = no_newline a && no_newline b.
Proof.
  induction a as [|c a IH]; simpl; [done|]. by destruct (decide (c = LF)).
Qed.

Lemma no_newline_join (sep : string) (ls : list string) :
  no_newline sep = true → Forall (λ x, no_newline x = true) ls →
  no_newline (join sep ls) = true.
Proof.
  intros Hsep. induction 1 as [|l ls Hl Hls IH]; [done|].
  destruct ls as [|l' ls]; [done|].
  change (join sep (l :: l' :: ls)) with (l +:+ sep +:+ join sep (l' :: ls)).
  by rewrite !no_newline_app, Hl, Hsep, IH.
Qed.

Lemma no_newline_quoted (x : string) :
  no_newline x = true → no_newline (quoted x) = true.
Proof. intros H. unfold quoted. by rewrite !no_newline_app, H. Qed.

Lemma no_newline_zeros (n : nat) : no_newline (zeros n) = true.
Proof. induction n as [|n IH]; [done|]. simpl. by rewrite IH. Qed.

Lemma no_newline_string_of_uint (u : Decimal.uint) :
  no_newline (NilEmpty.string_of_uint u) = true.
Proof. induction u; simpl; done. Qed.

Lemma no_newline_format (d : date) : no_newline (format_YYYY_MM_DD d) = true.
Proof.
  unfold format_YYYY_MM_DD, zfill, digits.
  by rewrite !no_newline_app, !no_newline_zeros, !no_newline_string_of_uint.
Qed.

Lemma no_newline_with_where (x : string) :
  no_newline x = true → no_newline (with_where x) = true.
Proof.
  intros H. unfold with_where. destruct (decide (x = "")); [done|].
  by rewrite no_newline_app, H.
Qed.

Lemma with_where_form (x : string) :
  with_where x = "" ∨ ∃ y, with_where x = "WHERE " +:+ y.
Proof.
  unfold with_where. destruct (decide (x = "")); [by left|right; by exists x].
Qed.

Lemma split_lines_no_newline (a : string) :
  no_newline a = true → split_lines a = [a].
Proof.
  induction a as [|c a IH]; simpl; [done|].
  destruct (decide (c = LF)); [done|]. intros H. by rewrite IH.
Qed.

Lemma split_lines_app (a b : string) :
  no_newline a = true → split_lines (a +:+ String LF b) = a :: split_lines b.
Proof.
  induction a as [|c a IH]; simpl.
  - intros _. by destruct (decide (LF = LF)).
  - destruct (decide (c = LF)); [done|]. intros H. by rewrite IH.
Qed.

(** Splitting the join of one-line strings gives the strings back. *)
Lemma split_lines_join (l : string) (ls : list string) :
  Forall (λ x, no_newline x = true) (l :: ls) →
  split_lines (join nl (l :: ls)) = l :: ls.
Proof.
  revert l. induction ls as [|l' ls IH]; intros l Hall.
  - apply Forall_cons in Hall as [Hl _]. by apply split_lines_no_newline.
  - apply Forall_cons in Hall as [Hl Hall].
    change (join nl (l :: l' :: ls)) with (l +:+ String LF (join nl (l' :: ls))).
    rewrite split_lines_app by done. by rewrite IH.
Qed.

Lemma select_template_lines (T w : string) :
  select_template T w
  = join nl [""; spaces 12 +:+ "SELECT *"; spaces 12 +:+ "FROM stock." +:+ T;
             spaces 12 +:+ w; spaces 8].
Proof.
  unfold select_template, join. cbn [String.concat].
  rewrite !append_assoc. reflexivity.
Qed.

Lemma delete_template_lines (T S clause : string) :
  delete_template T S clause
  = join nl [""; spaces 12 +:+ "DELETE"; spaces 12 +:+ "FROM stock." +:+ T;
             spaces 12 +:+ delete_date_clause S; spaces 16 +:+ clause; spaces 8].
Proof.
  unfold delete_template, join. cbn [String.concat].
  rewrite !append_assoc. reflexivity.
Qed.

(** [dedent] of a SELECT block whose table name and WHERE text span one
    line each: the margin of twelve spaces goes, the line of an empty
    WHERE text and the last line become empty. *)
Lemma dedent_select (T w : string) :
  no_newline T = true → no_newline w = true →
  (w = "" ∨ ∃ x, w = "WHERE " +:+ x) →
  dedent (select_template T w)
  = join nl [""; "SELECT *"; "FROM stock." +:+ T; w; ""].
Proof.
  intros HT Hw Hform. unfold dedent.
  rewrite select_template_lines, split_lines_join.
  - destruct Hform as [->|[x ->]]; lazy; reflexivity.
  - repeat constructor; rewrite ?no_newline_app, ?HT, ?Hw; done.
Qed.

(** [dedent] of a DELETE block: the margin of twelve spaces goes, the
    line of the instrument clause keeps four spaces, or is empty with the
    clause. *)
Lemma dedent_delete (T S clause : string) :
  no_newline T = true → no_newline S = true → no_newline clause = true →
  (clause = "" ∨ ∃ x, clause = "AND itemname in (" +:+ x) →
  dedent (delete_template T S clause)
  = join nl [""; "DELETE"; "FROM stock." +:+ T; "WHERE date >= '" +:+ S +:+ "'";
             if decide (clause = "") then "" else spaces 4 +:+ clause; ""].
Proof.
  intros HT HS Hc Hform. unfold dedent.
  rewrite delete_template_lines, split_lines_join.
  - destruct Hform as [->|[x ->]]; lazy; reflexivity.
  - unfold delete_date_clause.
    repeat constructor; rewrite ?no_newline_app, ?HT, ?HS, ?Hc; done.
Qed.

Lemma no_newline_read_where_clause (codeinfo_df : option (list ItemcodeInfo))
    (s e : option date) :
  one_line_names codeinfo_df →
  no_newline (read_where_clause codeinfo_df s e) = true.
Proof.
  intros Hn. unfold read_where_clause.
  apply no_newline_with_where, no_newline_join; [done|].
  unfold read_wheres. rewrite !Forall_app. split; [|split].
  - destruct codeinfo_df as [[|r rs]|]; [done| |done].
    constructor; [|done].
    rewrite !no_newline_app. unfold read_item_names.
    rewrite no_newline_join; [done|done|].
    apply Forall_forall. intros x [y [<- Hy]]%list_elem_of_In%in_map_iff.
    apply no_newline_quoted. simpl in Hn. rewrite Forall_forall in Hn.
    by apply Hn, list_elem_of_In.
  - destruct s; [|done]. constructor; [|done].
    by rewrite !no_newline_app, no_newline_format.
  - destruct e; [|done]. constructor; [|done].
    by rewrite !no_newline_app, no_newline_format.
Qed.

(** The query text of the read path. *)
Lemma read_query_text (T : string) (codeinfo_df : option (list ItemcodeInfo))
    (s e : option date) :
  no_newline T = true → one_line_names codeinfo_df →
  read_query T codeinfo_df s e
  = join nl [""; "SELECT *"; "FROM stock." +:+ T;
             read_where_clause codeinfo_df s e; ""].
Proof.
  intros HT Hn. unfold read_query. apply dedent_select; [done| |].
  - by apply no_newline_read_where_clause.
  - apply with_where_form.
Qed.

(** The query text of the union path: one SELECT block per table. *)
Lemma union_query_text (tables : list string) (s e : option date) :
  Forall (λ T, no_newline T = true) tables →
  union_query tables s e
  = join "UNION ALL"
      (map (λ T, join nl [""; "SELECT *"; "FROM stock." +:+ T;
                          union_where_clause s e; ""]) tables).
Proof.
  intros Hall. unfold union_query. f_equal.
  induction Hall as [|T ts HT _ IH]; [done|].
  simpl. rewrite IH. f_equal.
  apply dedent_select; [done| |apply with_where_form].
  unfold union_where_clause.
  destruct (read_wheres_no_names s e) as [<- _].
  by apply (no_newline_read_where_clause None s e).
Qed.

(** The query text of the delete path. *)
Lemma delete_query_text (T S : string) (codeinfo_df : option (list ItemcodeInfo)) :
  no_newline T = true → no_newline S = true → one_line_names codeinfo_df →
  delete_query T S codeinfo_df
  = join nl [""; "DELETE"; "FROM stock." +:+ T; "WHERE date >= '" +:+ S +:+ "'";
             match codeinfo_df with
             | Some df =>
                 "    AND itemname in ("
                 +:+ join ", " (map quoted (unique (map itemname df))) +:+ ")"
             | None => ""
             end; ""].
Proof.
  intros HT HS Hn. unfold delete_query.
  rewrite dedent_delete; [|done|done| |].
  - by destruct codeinfo_df.
  - destruct codeinfo_df as [df|]; [|done]. simpl.
    rewrite !no_newline_app. unfold delete_itemnames_str.
    rewrite no_newline_join; [done|done|].
    apply Forall_forall. intros x [y [<- Hy]]%list_elem_of_In%in_map_iff.
    apply no_newline_quoted.
    apply (proj2 (list_elem_of_In _ _)) in Hy.
    apply (proj1 (PyFacts.elem_of_unique _ _)) in Hy.
    apply (proj1 (list_elem_of_In _ _)) in Hy.
    apply (proj1 (in_map_iff _ _ _)) in Hy as [r [<- Hr]].
    simpl in Hn. rewrite Forall_forall in Hn. by apply Hn, list_elem_of_In.
  - destruct codeinfo_df as [df|]; [right|by left].
    by exists (delete_itemnames_str df +:+ ")").
Qed.

(** The text of the read path for each combination of arguments. *)
Lemma read_where_clause_cases (r : ItemcodeInfo) (rs : list ItemcodeInfo) (s e : date) :
  let N := "itemname IN (" +:+ read_item_names (r :: rs) +:+ ")" in
  let S := "date >= '" +:+ format_YYYY_MM_DD s +:+ "'" in
  let E := "date <= '" +:+ format_YYYY_MM_DD e +:+ "'" in
  read_where_clause (Some (r :: rs)) (Some s) (Some e)
  = "WHERE " +:+ N +:+ " AND " +:+ S +:+ " AND " +:+ E
  ∧ read_where_clause (Some (r :: rs)) (Some s) None = "WHERE " +:+ N +:+ " AND " +:+ S
  ∧ read_where_clause (Some (r :: rs)) None (Some e) = "WHERE " +:+ N +:+ " AND " +:+ E
  ∧ read_where_clause (Some (r :: rs)) None None = "WHERE " +:+ N
  ∧ read_where_clause None (Some s) (Some e) = "WHERE " +:+ S +:+ " AND " +:+ E
  ∧ read_where_clause None (Some s) None = "WHERE " +:+ S
  ∧ read_where_clause None None (Some e) = "WHERE " +:+ E.
Proof.
  unfold read_where_clause, read_wheres, join. simpl.
  rewrite !with_where_cons. simpl.
  rewrite !append_assoc. simpl.
  repeat split.
Qed.

End SqlFacts.

(** C5. The read path renders the conjunction of the clauses of the
    arguments supplied, in the order instrument names, start, end: all
    three with a non-empty instrument frame and both dates; each smaller
    combination with the clauses of what was supplied; no WHERE text at
    all with no argument (or an empty frame), the query then being the
    bare SELECT on the table; for start 2024-01-01, end 2024-01-31 and
    names A, B the text shown. The query sent is the SELECT on the table
    followed by that text on a line of its own. *)
Theorem read_where_clause_conjunction :
  (∀ r rs s e,
     let N := "itemname IN (" +:+ read_item_names (r :: rs) +:+ ")" in
     let S := "date >= '" +:+ format_YYYY_MM_DD s +:+ "'" in
     let E := "date <= '" +:+ format_YYYY_MM_DD e +:+ "'" in
     read_where_clause (Some (r :: rs)) (Some s) (Some e)
     = "WHERE " +:+ N +:+ " AND " +:+ S +:+ " AND " +:+ E
     ∧ read_where_clause (Some (r :: rs)) (Some s) None = "WHERE " +:+ N +:+ " AND " +:+ S
     ∧ read_where_clause (Some (r :: rs)) None (Some e) = "WHERE " +:+ N +:+ " AND " +:+ E
     ∧ read_where_clause (Some (r :: rs)) None None = "WHERE " +:+ N
     ∧ read_where_clause None (Some s) (Some e) = "WHERE " +:+ S +:+ " AND " +:+ E
     ∧ read_where_clause None (Some s) None = "WHERE " +:+ S
     ∧ read_where_clause None None (Some e) = "WHERE " +:+ E)
  ∧ read_where_clause None None None = ""
  ∧ (∀ s e, read_where_clause (Some []) s e = read_where_clause None s e)
  ∧ (∀ info_type codeinfo_df s e,
       no_newline info_type = true → one_line_names codeinfo_df →
       read_query info_type codeinfo_df s e
       = nl +:+ "SELECT *" +:+ nl +:+ "FROM stock." +:+ info_type +:+ nl
         +:+ read_where_clause codeinfo_df s e +:+ nl)
  ∧ read_where_clause (Some [mkItem "1" "A" "KOSPI"; mkItem "2" "B" "KOSPI"])
      (Some (mkDate 2024 1 1)) (Some (mkDate 2024 1 31))
    = "WHERE itemname IN ('A', 'B') AND date >= '2024-01-01' AND date <= '2024-01-31'".
Proof.
  split; [|split; [reflexivity|split; [|split; [|vm_compute; reflexivity]]]].
  - intros r rs s e. apply SqlFacts.read_where_clause_cases.
  - intros s e. unfold read_where_clause.
    destruct (SqlFacts.read_wheres_no_names s e) as [-> ->]. done.
  - intros info_type codeinfo_df s e HT Hn.
    rewrite SqlFacts.read_query_text by done.
    unfold join. cbn [String.concat].
    by rewrite !SqlFacts.append_assoc.
Qed.

Lemma read_where_clause_conjunction_witness :
  read_query "daily_items_all" None None None
  = nl +:+ "SELECT *" +:+ nl +:+ "FROM stock.daily_items_all" +:+ nl +:+ nl
  ∧ read_query "daily_items_all"
      (Some [mkItem "1" "A" "KOSPI"; mkItem "2" "B" "KOSPI"])
      (Some (mkDate 2024 1 1)) (Some (mkDate 2024 1 31))
    = nl +:+ "SELECT *" +:+ nl +:+ "FROM stock.daily_items_all" +:+ nl
      +:+ "WHERE itemname IN ('A', 'B') AND date >= '2024-01-01' AND date <= '2024-01-31'"
      +:+ nl.
Proof.
  destruct read_where_clause_conjunction as (_ & _ & _ & Htext & _).
  split.
  - apply (Htext "daily_items_all" None None None); [reflexivity|exact I].
  - apply (Htext "daily_items_all"
             (Some [mkItem "1" "A" "KOSPI"; mkItem "2" "B" "KOSPI"])
             (Some (mkDate 2024 1 1)) (Some (mkDate 2024 1 31))); [reflexivity|].
    repeat constructor.
Defined.

(** C9, as stated, fails. With the instrument set {A} the read path
    filters on the name and the union path renders no name clause; with
    the empty set the read path renders no name clause and the delete
    path renders one, with an empty list. *)
Lemma filter_paths_differ :
  read_where_clause (Some [mkItem "1" "A" "KOSPI"]) (Some (mkDate 2024 1 1)) None
  ≠ union_where_clause (Some (mkDate 2024 1 1)) None
  ∧ read_where_clause (Some []) (Some (mkDate 2024 1 1)) None
    = "WHERE date >= '2024-01-01'"
  ∧ delete_date_clause "2024-01-01" +:+ " " +:+ delete_itemnames_clause (Some [])
    = "WHERE date >= '2024-01-01' AND itemname in ()".
Proof. split; [vm_compute; discriminate|split; vm_compute; reflexivity]. Qed.

(** C9, amended. The read path and the union path render the same
    date-bound text for every combination of optional start and end date;
    the delete path renders the same lower-bound clause for the formatted
    date and has no upper bound; for a non-empty instrument frame with
    distinct names the read path and the delete path list the same quoted
    names, after IN in one and after in in the other. *)
Theorem filter_clauses_agree (s e : option date) (d : date)
    (r : ItemcodeInfo) (rs : list ItemcodeInfo) :
  NoDup (map itemname (r :: rs)) →
  union_where_clause s e = read_where_clause None s e
  ∧ delete_date_clause (format_YYYY_MM_DD d) = read_where_clause None (Some d) None
  ∧ ∃ names,
      read_where_clause (Some (r :: rs)) None None
      = "WHERE itemname IN (" +:+ names +:+ ")"
      ∧ delete_itemnames_clause (Some (r :: rs))
        = "AND itemname in (" +:+ names +:+ ")".
Proof.
  intros Hnd. split; [|split].
  - unfold union_where_clause, read_where_clause.
    by destruct (SqlFacts.read_wheres_no_names s e) as [-> _].
  - by destruct (SqlFacts.read_where_clause_cases r rs d d) as (_ & _ & _ & _ & _ & -> & _).
  - exists (read_item_names (r :: rs)). split.
    + by destruct (SqlFacts.read_where_clause_cases r rs d d) as (_ & _ & _ & -> & _).
    + unfold delete_itemnames_clause, delete_itemnames_str, read_item_names.
      rewrite PyFacts.unique_NoDup_id by done.
      by rewrite map_map.
Qed.

Lemma filter_clauses_agree_witness :
  union_where_clause (Some (mkDate 2024 1 1)) (Some (mkDate 2024 1 31))
  = read_where_clause None (Some (mkDate 2024 1 1)) (Some (mkDate 2024 1 31))
  ∧ delete_date_clause (format_YYYY_MM_DD (mkDate 2024 1 3))
    = read_where_clause None (Some (mkDate 2024 1 3)) None
  ∧ ∃ names,
      read_where_clause (Some [mkItem "1" "A" "KOSPI"; mkItem "2" "B" "KOSPI"]) None None
      = "WHERE itemname IN (" +:+ names +:+ ")"
      ∧ delete_itemnames_clause (Some [mkItem "1" "A" "KOSPI"; mkItem "2" "B" "KOSPI"])
        = "AND itemname in (" +:+ names +:+ ")".
Proof.
  apply (filter_clauses_agree (Some (mkDate 2024 1 1)) (Some (mkDate 2024 1 31))
           (mkDate 2024 1 3) (mkItem "1" "A" "KOSPI") [mkItem "2" "B" "KOSPI"]).
  compute_done.
Defined.

(* ===================================================================== *)
(** ** The date index: order, sort and slices *)
(* ===================================================================== *)

Module FrameFacts.

Ltac date_order :=
  intros;
  repeat match goal with d : date |- _ => destruct d end;
  unfold date_le, date_lt, date_ltb, date_leb in *; simpl in *;
  repeat match goal with
         | H : context [(?x <? ?y)%nat] |- _ => destruct (Nat.ltb_spec x y)
         | H : context [(?x =? ?y)%nat] |- _ => destruct (Nat.eqb_spec x y)
         | H : context [(?x <=? ?y)%nat] |- _ => destruct (Nat.leb_spec x y)
         | |- context [(?x <? ?y)%nat] => destruct (Nat.ltb_spec x y)
         | |- context [(?x =? ?y)%nat] => destruct (Nat.eqb_spec x y)
         | |- context [(?x <=? ?y)%nat] => destruct (Nat.leb_spec x y)
         end;
  simpl in *; try discriminate; try lia; try (f_equal; lia).

Lemma date_leb_total (a b : date) : date_leb a b = false → date_leb b a = true.
Proof. date_order. Qed.

Lemma date_le_trans (a b c : date) : date_le a b → date_le b c → date_le a c.
Proof. date_order. Qed.

Lemma date_le_antisym (a b : date) : date_le a b → date_le b a → a = b.
Proof. date_order. Qed.

Lemma date_le_refl (a : date) : date_le a a.
Proof. date_order. Qed.

Lemma date_ltb_false (a b : date) : date_ltb a b = false ↔ date_le b a.
Proof. unfold date_ltb, date_le. by destruct (date_leb b a). Qed.

Lemma date_lt_iff (a b : date) : date_lt a b ↔ date_le a b ∧ a ≠ b.
Proof.
  split.
  - intros H. split; [date_order|]. intros ->. date_order.
  - intros [H Hne]. unfold date_lt, date_ltb.
    destruct (date_leb b a) eqn:Hba; [|done].
    exfalso. apply Hne. by apply date_le_antisym.
Qed.

Lemma insert_sorted_perm (r : date * list cell) (l : indexed) :
  insert_sorted r l ≡ₚ r :: l.
Proof.
  induction l as [|x l IH]; simpl; [done|].
  destruct (date_leb r.1 x.1); [done|].
  rewrite IH. apply Permutation_swap.
Qed.

Lemma sort_index_perm (l : indexed) : sort_index l ≡ₚ l.
Proof.
  induction l as [|x l IH]; simpl; [done|].
  by rewrite insert_sorted_perm, IH.
Qed.

Lemma insert_sorted_sorted (r : date * list cell) (l : indexed) :
  StronglySorted by_date l → StronglySorted by_date (insert_sorted r l).
Proof.
  induction 1 as [|x l Hs IH Hall]; simpl.
  - repeat constructor.
  - destruct (date_leb r.1 x.1) eqn:Hrx.
    + constructor; [by constructor|].
      constructor; [done|].
      eapply Forall_impl; [exact Hall|].
      intros y Hy. unfold by_date in *. by eapply date_le_trans.
    + constructor; [done|].
      rewrite insert_sorted_perm. constructor; [|done].
      by apply date_leb_total.
Qed.

Lemma sort_index_sorted (l : indexed) : StronglySorted by_date (sort_index l).
Proof.
  induction l as [|x l IH]; simpl; [constructor|].
  by apply insert_sorted_sorted.
Qed.

(** On a sorted index, the slice from [s] keeps the rows not before [s]. *)
Lemma elem_of_loc_from (s : date) (l : indexed) (r : date * list cell) :
  StronglySorted by_date l →
  r ∈ loc_from s l ↔ r ∈ l ∧ date_le s r.1.
Proof.
  induction 1 as [|x l Hs IH Hall]; simpl.
  - split; [by intros ?%elem_of_nil|by intros [?%elem_of_nil _]].
  - destruct (date_ltb x.1 s) eqn:Hxs.
    + rewrite IH, elem_of_cons. split; [intros [? ?]; split; [by right|done]|].
      intros [[->|Hin] Hle]; [|done].
      exfalso. revert Hxs Hle. clear. destruct x as [d c]. simpl. date_order.
    + apply date_ltb_false in Hxs. split; [|by intros [? _]].
      intros Hin. split; [done|].
      apply elem_of_cons in Hin as [->|Hin]; [done|].
      rewrite Forall_forall in Hall. specialize (Hall r Hin).
      unfold by_date in Hall. by eapply date_le_trans.
Qed.

(** On a sorted index, the slice up to [e] keeps the rows not after [e]. *)
Lemma elem_of_loc_to (e : date) (l : indexed) (r : date * list cell) :
  StronglySorted by_date l →
  r ∈ loc_to e l ↔ r ∈ l ∧ date_le r.1 e.
Proof.
  induction 1 as [|x l Hs IH Hall]; simpl.
  - split; [by intros ?%elem_of_nil|by intros [?%elem_of_nil _]].
  - destruct (date_leb x.1 e) eqn:Hxe.
    + rewrite !elem_of_cons, IH. split.
      * intros [->|[Hin Hle]]; [split; [by left|done]|split; [by right|done]].
      * intros [[->|Hin] Hle]; [by left|by right].
    + split; [by intros ?%elem_of_nil|].
      intros [Hin Hle]. exfalso.
      assert (date_le x.1 e) as Hx; [|unfold date_le in Hx; congruence].
      apply elem_of_cons in Hin as [->|Hin]; [done|].
      rewrite Forall_forall in Hall. specialize (Hall r Hin).
      unfold by_date in Hall. by eapply date_le_trans.
Qed.

Lemma loc_from_sublist (s : date) (l : indexed) : loc_from s l `sublist_of` l.
Proof.
  induction l as [|x l IH]; simpl; [done|].
  destruct (date_ltb x.1 s); [by constructor|done].
Qed.

Lemma loc_to_sublist (e : date) (l : indexed) : loc_to e l `sublist_of` l.
Proof.
  induction l as [|x l IH]; simpl; [done|].
  destruct (date_leb x.1 e); [by constructor|apply sublist_nil_l].
Qed.

Lemma StronglySorted_sublist {A} (R : A → A → Prop) (k l : list A) :
  k `sublist_of` l → StronglySorted R l → StronglySorted R k.
Proof.
  induction 1 as [|x k l Hsub IH|x k l Hsub IH]; intros Hs; [done| |].
  - apply StronglySorted_inv in Hs as [Hs Hall]. constructor; [by apply IH|].
    rewrite Forall_forall in Hall |- *. intros y Hy. apply Hall.
    by apply (sublist_subseteq _ _ Hsub).
  - apply StronglySorted_inv in Hs as [Hs _]. by apply IH.
Qed.

Lemma elem_of_slice (start_date end_date : option date) (l : indexed)
    (r : date * list cell) :
  StronglySorted by_date l →
  r ∈ slice start_date end_date l ↔ r ∈ l ∧ within start_date end_date r.1.
Proof.
  intros Hs. unfold slice, within.
  assert (StronglySorted by_date
            match start_date with Some s => loc_from s l | None => l end) as Hs'.
  { destruct start_date; [|done].
    eapply StronglySorted_sublist; [apply loc_from_sublist|done]. }
  destruct end_date as [e|], start_date as [s|];
    rewrite ?elem_of_loc_to, ?elem_of_loc_from by done; tauto.
Qed.

Lemma slice_sublist (start_date end_date : option date) (l : indexed) :
  slice start_date end_date l `sublist_of` l.
Proof.
  unfold slice. destruct end_date, start_date; try done.
  - etrans; [apply loc_to_sublist|apply loc_from_sublist].
  - apply loc_to_sublist.
  - apply loc_from_sublist.
Qed.

(** With distinct dates the sorted index increases strictly. *)
Lemma sorted_NoDup_strict (l : indexed) :
  StronglySorted by_date l → NoDup l.*1 → StronglySorted date_lt l.*1.
Proof.
  induction 1 as [|x l Hs IH Hall]; intros Hnd; simpl; [constructor|].
  rewrite fmap_cons in Hnd. apply NoDup_cons in Hnd as [Hx Hnd].
  constructor; [by apply IH|].
  apply Forall_fmap, Forall_forall. intros y Hy. simpl.
  apply date_lt_iff. split.
  - rewrite Forall_forall in Hall. by apply Hall.
  - intros Heq. apply Hx. rewrite Heq. apply list_elem_of_fmap. by exists y.
Qed.

End FrameFacts.

(* ===================================================================== *)
(** ** Runs of the worker's methods *)
(* ===================================================================== *)

Module WorkerFacts.

#[local] Existing Instances Worker.M_bind Worker.M_ret.

(** Unfolds a method down to the answers of the client. *)
Ltac run :=
  unfold get_itemcodes_info, _get_daily_info, delete_duplicated_rows,
    save_daily_info_all, get_daily_info_all, _save_info,
    get_table_if_exists, try_except, invoke, logger_info, lift,
    mbind, Worker.M_bind, mret, Worker.M_ret;
  simpl.

Section Runs.

Context {W RowIterator Job : Type} (client : Client W RowIterator Job).

(** The existence probe: found, absent, or failed for another reason. *)
Lemma get_table_if_exists_run (table_name : string) (w : world W) :
  get_table_if_exists client table_name w =
  match client_get_table client table_name (warehouse w) with
  | (Ok t, wh) =>
      (Ok (Some t), mkWorld wh (calls w ++ [CallGetTable table_name]) (log w))
  | (Raise e, wh) =>
      (if decide (e = NotFound) then Ok None else Raise e,
       mkWorld wh (calls w ++ [CallGetTable table_name]) (log w))
  end.
Proof.
  run. destruct (client_get_table client table_name (warehouse w)) as [[t|e] wh];
    simpl; [done|].
  by destruct (decide (e = NotFound)).
Qed.

(** [_save_info] when the table exists and the warehouse raises
    [Conflict] at the submission of the load job: skipped and logged. *)
Lemma save_info_conflict_at_submission (info_type table_name : string)
    (df : DataFrame) (wd : WriteDisposition) (w : world W)
    (sch : list SchemaField) (t : Table) (wh1 wh2 : W) :
  _extract_schema (dtypes df) = Ok sch →
  client_get_table client table_name (warehouse w) = (Ok t, wh1) →
  client_load_table_from_dataframe client df t (mkLoadConfig sch wd) wh1
  = (Raise Conflict, wh2) →
  _save_info client info_type table_name df wd w
  = (Ok None,
     mkWorld wh2
       (calls w ++ [CallGetTable table_name; CallLoad df t (mkLoadConfig sch wd)])
       (log w ++ [LogSkip (table_id t)])).
Proof.
  intros Hsch Hget Hload. run. rewrite Hsch, Hget. simpl. rewrite Hload. simpl.
  by rewrite <- app_assoc.
Qed.

(** [_save_info] when the load job is accepted and the warehouse raises
    [Conflict] when its completion is awaited: [job.result()] is outside
    the [try], so the exception leaves the method, and nothing is
    logged. *)
Lemma save_info_conflict_at_completion (info_type table_name : string)
    (df : DataFrame) (wd : WriteDisposition) (w : world W)
    (sch : list SchemaField) (t : Table) (job : Job) (wh1 wh2 wh3 : W) :
  _extract_schema (dtypes df) = Ok sch →
  client_get_table client table_name (warehouse w) = (Ok t, wh1) →
  client_load_table_from_dataframe client df t (mkLoadConfig sch wd) wh1
  = (Ok job, wh2) →
  job_result client job wh2 = (Raise Conflict, wh3) →
  _save_info client info_type table_name df wd w
  = (Raise Conflict,
     mkWorld wh3
       (calls w ++ [CallGetTable table_name; CallLoad df t (mkLoadConfig sch wd);
                    CallJobResult])
       (log w)).
Proof.
  intros Hsch Hget Hload Hres. run. rewrite Hsch, Hget. simpl.
  rewrite Hload. simpl. rewrite Hres. simpl.
  by rewrite <- !app_assoc.
Qed.

End Runs.

End WorkerFacts.

(* ===================================================================== *)
(** ** Absent tables, deletes, loads and reads *)
(* ===================================================================== *)

(** C10. When the warehouse answers [NotFound] for the table, the
    existence probe returns [None] without raising and the delete path
    returns normally; [get_itemcodes_info] and [_get_daily_info] go on to
    call [list_rows(None)] and end in an exception, returning neither an
    empty frame nor [None]; so does [get_daily_info_all], after
    submitting its query. *)
Theorem absent_table_reads_raise {W RowIterator Job : Type}
    (client : Client W RowIterator Job) (w : world W)
    (info_type : string) (item : ItemcodeInfo) (s e : option date)
    (start_date_str : string) (codeinfo_df : option (list ItemcodeInfo))
    (wh0 wh1 : W) :
  let shard := shard_name info_type (itemcode item) (market item) in
  client_get_table client "itemcodes_info" (warehouse w) = (Raise NotFound, wh0) →
  client_get_table client shard (warehouse w) = (Raise NotFound, wh1) →
  get_table_if_exists client shard w
  = (Ok None, mkWorld wh1 (calls w ++ [CallGetTable shard]) (log w))
  ∧ delete_duplicated_rows client shard start_date_str codeinfo_df w
    = (Ok tt, mkWorld wh1 (calls w ++ [CallGetTable shard]) (log w))
  ∧ (let out := get_itemcodes_info client w in
     is_raise out.1
     ∧ calls out.2 = calls w ++ [CallGetTable "itemcodes_info"; CallListRows None])
  ∧ (let out := _get_daily_info client info_type item s e w in
     is_raise out.1
     ∧ calls out.2 = calls w ++ [CallGetTable shard; CallListRows None])
  ∧ (let out := get_daily_info_all client shard codeinfo_df s e w in
     is_raise out.1
     ∧ calls out.2
       = calls w ++ [CallGetTable shard;
                     CallQuery (read_query shard codeinfo_df s e) None]).
Proof.
  intros shard Hinfo Hshard. split; [|split; [|split; [|split]]].
  - by rewrite WorkerFacts.get_table_if_exists_run, Hshard.
  - WorkerFacts.run. by rewrite Hshard.
  - WorkerFacts.run. rewrite Hinfo. simpl.
    destruct (client_list_rows client None wh0) as [[it|ex] wh]; simpl;
      by rewrite <- app_assoc.
  - WorkerFacts.run. fold shard. rewrite Hshard. simpl.
    destruct (client_list_rows client None wh1) as [[it|ex] wh]; simpl;
      by rewrite <- app_assoc.
  - WorkerFacts.run. rewrite Hshard. simpl.
    destruct (client_query client (read_query shard codeinfo_df s e) None wh1)
      as [[job|ex] wh]; simpl; by rewrite <- app_assoc.
Qed.

Lemma absent_table_reads_raise_witness :
  let w := start [] in
  let shard := shard_name "daily_items" "005930" "KOSPI" in
  get_table_if_exists (mock_client AtSubmission) shard w
  = (Ok None, mkWorld [] [CallGetTable shard] [])
  ∧ delete_duplicated_rows (mock_client AtSubmission) shard "2024-01-03" None w
    = (Ok tt, mkWorld [] [CallGetTable shard] [])
  ∧ (let out := get_itemcodes_info (mock_client AtSubmission) w in
     is_raise out.1
     ∧ calls out.2 = [CallGetTable "itemcodes_info"; CallListRows None])
  ∧ (let out := _get_daily_info (mock_client AtSubmission) "daily_items" samsung
                  (Some (jan 5)) None w in
     is_raise out.1 ∧ calls out.2 = [CallGetTable shard; CallListRows None])
  ∧ (let out := get_daily_info_all (mock_client AtSubmission) shard None
                  (Some (jan 5)) None w in
     is_raise out.1
     ∧ calls out.2
       = [CallGetTable shard;
          CallQuery (read_query shard None (Some (jan 5)) None) None]).
Proof.
  exact (absent_table_reads_raise (mock_client AtSubmission) (start [])
           "daily_items" samsung (Some (jan 5)) None "2024-01-03" None [] []
           eq_refl eq_refl).
Defined.

(** C7. [delete_duplicated_rows]: when the probe finds no table the
    method returns without raising, having made the probe and no other
    call, so no DELETE is submitted; when the table is there it submits
    one statement and awaits its job; the statement is the DELETE on that
    table with the clause date >= start_date_str followed, when an
    instrument frame is given, by the restriction of itemname to the
    names of the frame. *)
Theorem delete_duplicated_rows_spec {W RowIterator Job : Type}
    (client : Client W RowIterator Job) (w : world W)
    (table_name start_date_str : string) (codeinfo_df : option (list ItemcodeInfo)) :
  (∀ wh, client_get_table client table_name (warehouse w) = (Raise NotFound, wh) →
     delete_duplicated_rows client table_name start_date_str codeinfo_df w
     = (Ok tt, mkWorld wh (calls w ++ [CallGetTable table_name]) (log w)))
  ∧ (∀ t wh, client_get_table client table_name (warehouse w) = (Ok t, wh) →
     let sql := delete_query table_name start_date_str codeinfo_df in
     delete_duplicated_rows client table_name start_date_str codeinfo_df w
     = match client_query client sql None wh with
       | (Raise ex, wh2) =>
           (Raise ex,
            mkWorld wh2 (calls w ++ [CallGetTable table_name; CallQuery sql None]) (log w))
       | (Ok job, wh2) =>
           match job_result client job wh2 with
           | (Raise ex, wh3) =>
               (Raise ex,
                mkWorld wh3
                  (calls w ++ [CallGetTable table_name; CallQuery sql None; CallJobResult])
                  (log w))
           | (Ok _, wh3) =>
               (Ok tt,
                mkWorld wh3
                  (calls w ++ [CallGetTable table_name; CallQuery sql None; CallJobResult])
                  (log w ++ [LogDeleted table_name start_date_str]))
           end
       end)
  ∧ (no_newline table_name = true → no_newline start_date_str = true →
     one_line_names codeinfo_df →
     delete_query table_name start_date_str codeinfo_df
     = nl +:+ "DELETE" +:+ nl
       +:+ "FROM stock." +:+ table_name +:+ nl
       +:+ "WHERE date >= '" +:+ start_date_str +:+ "'" +:+ nl
       +:+ match codeinfo_df with
           | Some df =>
               "    AND itemname in ("
               +:+ join ", " (map quoted (unique (map itemname df))) +:+ ")"
           | None => ""
           end +:+ nl).
Proof.
  split; [|split].
  - intros wh Hget. WorkerFacts.run. by rewrite Hget.
  - intros t wh Hget sql. WorkerFacts.run. rewrite Hget. simpl.
    fold sql.
    destruct (client_query client sql None wh) as [[job|ex] wh2]; simpl.
    + destruct (job_result client job wh2) as [[[]|ex] wh3]; simpl;
        by rewrite <- !app_assoc.
    + by rewrite <- !app_assoc.
  - intros HT HS Hn. rewrite SqlFacts.delete_query_text by done.
    unfold join. cbn [String.concat].
    by rewrite !SqlFacts.append_assoc.
Qed.

Lemma delete_duplicated_rows_spec_witness :
  delete_duplicated_rows (mock_client AtSubmission) "daily_items_all" "2024-01-03"
    None (start [])
  = (Ok tt, mkWorld [] [CallGetTable "daily_items_all"] [])
  ∧ calls (delete_duplicated_rows (mock_client AtSubmission)
             "daily_items_info_005930_KOSPI" "2024-01-03"
             (Some [samsung; samsung]) (start shard_with_ten_days)).2
    = [CallGetTable "daily_items_info_005930_KOSPI";
       CallQuery
         (nl +:+ "DELETE" +:+ nl
          +:+ "FROM stock.daily_items_info_005930_KOSPI" +:+ nl
          +:+ "WHERE date >= '2024-01-03'" +:+ nl
          +:+ "    AND itemname in ('Samsung')" +:+ nl)
         None;
       CallJobResult].
Proof.
  pose proof (delete_duplicated_rows_spec (mock_client AtSubmission)
                (start shard_with_ten_days) "daily_items_info_005930_KOSPI"
                "2024-01-03" (Some [samsung; samsung])) as (_ & Hrun & Htext).
  split.
  - apply (delete_duplicated_rows_spec (mock_client AtSubmission) (start [])
             "daily_items_all" "2024-01-03" None).
    reflexivity.
  - rewrite (Hrun (mkTable "daily_items_info_005930_KOSPI" daily_schema)
               shard_with_ten_days eq_refl).
    rewrite Htext; [reflexivity|reflexivity|reflexivity|].
    repeat constructor.
Defined.

(** C3, as stated, fails. With no table in the listing the method raises
    nothing and sends the empty text to the warehouse as a query with the
    aggregate table as destination. *)
Lemma empty_union_query_is_submitted :
  let out := save_daily_info_all (mock_client AtSubmission) "daily_items_info"
               [samsung] WRITE_EMPTY None None (start []) in
  out.1 = Ok "daily_items_info_all"
  ∧ calls out.2
    = [CallListTables;
       CallQuery "" (Some (mkQueryConfig WRITE_EMPTY "daily_items_info_all"));
       CallJobResult]
  ∧ ¬ (is_raise out.1 ∧ Forall (λ c, is_query c = false) (calls out.2)).
Proof.
  vm_compute. split; [reflexivity|]. split; [reflexivity|].
  by intros [[] _].
Qed.

(** C3, amended. When none of the resolved names is in the table
    listing, [save_daily_info_all] has no guard of its own: it submits
    the empty text (the join of no SELECT block) as the query, with the
    aggregate table as destination, and what the warehouse answers to
    that query, or to awaiting its job, is the outcome. *)
Theorem union_all_without_shards {W RowIterator Job : Type}
    (client : Client W RowIterator Job) (w : world W)
    (info_type : string) (codeinfo_df : list ItemcodeInfo)
    (wd : WriteDisposition) (s e : option date)
    (listing : list string) (wh1 : W) :
  client_list_tables client (warehouse w) = (Ok listing, wh1) →
  Forall (λ data, union_member_name info_type data ∉ listing) codeinfo_df →
  let cfg := mkQueryConfig wd (result_table_name info_type) in
  save_daily_info_all client info_type codeinfo_df wd s e w
  = match client_query client "" (Some cfg) wh1 with
    | (Raise ex, wh2) =>
        (Raise ex,
         mkWorld wh2 (calls w ++ [CallListTables; CallQuery "" (Some cfg)]) (log w))
    | (Ok job, wh2) =>
        match job_result client job wh2 with
        | (Raise ex, wh3) =>
            (Raise ex,
             mkWorld wh3
               (calls w ++ [CallListTables; CallQuery "" (Some cfg); CallJobResult])
               (log w))
        | (Ok _, wh3) =>
            (Ok (result_table_name info_type),
             mkWorld wh3
               (calls w ++ [CallListTables; CallQuery "" (Some cfg); CallJobResult])
               (log w))
        end
    end.
Proof.
  intros Hlist Hnone cfg. WorkerFacts.run. rewrite Hlist. simpl.
  assert (filter (λ x, x ∈ listing) (map (union_member_name info_type) codeinfo_df) = [])
    as ->.
  { clear -Hnone. induction Hnone as [|x l Hx _ IH]; [done|].
    simpl. by rewrite filter_cons_False. }
  change (union_query [] s e) with "".
  fold cfg.
  destruct (client_query client "" (Some cfg) wh1) as [[job|ex] wh2]; simpl.
  - destruct (job_result client job wh2) as [[[]|ex] wh3]; simpl;
      by rewrite <- !app_assoc.
  - by rewrite <- !app_assoc.
Qed.

Lemma union_all_without_shards_witness :
  save_daily_info_all (mock_client AtSubmission) "daily_items_indicator_info"
    [samsung] WRITE_EMPTY (Some (jan 1)) None (start shard_with_ten_days)
  = (Ok "daily_items_indicator_info_all",
     mkWorld shard_with_ten_days
       [CallListTables;
        CallQuery "" (Some (mkQueryConfig WRITE_EMPTY "daily_items_indicator_info_all"));
        CallJobResult] []).
Proof.
  apply (union_all_without_shards (mock_client AtSubmission)
           (start shard_with_ten_days) "daily_items_indicator_info" [samsung]
           WRITE_EMPTY (Some (jan 1)) None ["daily_items_info_005930_KOSPI"]
           shard_with_ten_days).
  - reflexivity.
  - constructor; [compute_done|constructor].
Defined.

(** C2 at the failing input. The first load of a batch into a shard that
    does not exist yet creates the table and loads it. For the second,
    identical load the warehouse accepts the job and reports the
    duplicate when its completion is awaited: [Conflict] leaves
    [_save_info] through [job.result()], which is outside the [try], and
    no skip is logged. *)
Theorem load_twice_conflict_at_completion :
  let first := save_daily_item_info (mock_client AtCompletion) samsung five_days
                 WRITE_EMPTY (start []) in
  let second := save_daily_item_info (mock_client AtCompletion) samsung five_days
                  WRITE_EMPTY first.2 in
  first.1 = Ok (Some (mkTable "daily_items_info_005930_KOSPI" daily_schema))
  ∧ second.1 = Raise Conflict
  ∧ log second.2 = log first.2
  ∧ LogSkip "daily_items_info_005930_KOSPI" ∉ log second.2.
Proof.
  vm_compute. repeat split.
  intros H. repeat (apply elem_of_cons in H as [H|H]; [discriminate|]).
  by apply elem_of_nil in H.
Qed.

(** The same two loads when the warehouse reports the duplicate at the
    submission of the job: created and loaded, then skipped and logged. *)
Lemma load_twice_conflict_at_submission :
  let first := save_daily_item_info (mock_client AtSubmission) samsung five_days
                 WRITE_EMPTY (start []) in
  let second := save_daily_item_info (mock_client AtSubmission) samsung five_days
                  WRITE_EMPTY first.2 in
  first.1 = Ok (Some (mkTable "daily_items_info_005930_KOSPI" daily_schema))
  ∧ second.1 = Ok None
  ∧ log second.2 = log first.2 ++ [LogSkip "daily_items_info_005930_KOSPI"].
Proof. vm_compute. repeat split. Qed.

(** C6. A single-shard read of a table whose rows have distinct dates
    returns, in increasing order of date, exactly the rows with
    start_date <= date <= end_date, each bound applying when it is
    given. *)
Theorem daily_slice_inclusive {W RowIterator Job : Type}
    (client : Client W RowIterator Job) (w : world W)
    (info_type : string) (item : ItemcodeInfo) (s e : option date)
    (t : Table) (it : RowIterator) (dts : gmap string dtype) (df : DataFrame)
    (idx : indexed) (wh1 wh2 wh3 : W) :
  let shard := shard_name info_type (itemcode item) (market item) in
  client_get_table client shard (warehouse w) = (Ok t, wh1) →
  client_list_rows client (Some t) wh1 = (Ok it, wh2) →
  _extract_dtypes (Some t) = Ok dts →
  rows_to_dataframe client it dts wh2 = (Ok df, wh3) →
  set_index_date df = Ok idx →
  NoDup idx.*1 →
  ∃ out,
    _get_daily_info client info_type item s e w
    = (Ok out,
       mkWorld wh3
         (calls w ++ [CallGetTable shard; CallListRows (Some t); CallRowsToDataframe])
         (log w))
    ∧ (∀ r, r ∈ out ↔ r ∈ idx ∧ within s e r.1)
    ∧ StronglySorted date_lt out.*1.
Proof.
  intros shard Hget Hrows Hdts Hdf Hidx Hnd.
  exists (slice s e (sort_index idx)). split; [|split].
  - WorkerFacts.run. fold shard. rewrite Hget. simpl. rewrite Hrows. simpl.
    replace (extract_dtypes_loop (schema t) ∅) with (Ok dts) by done. simpl.
    rewrite Hdf. simpl. rewrite Hidx. simpl.
    by rewrite <- !app_assoc.
  - intros r.
    rewrite FrameFacts.elem_of_slice by apply FrameFacts.sort_index_sorted.
    by rewrite FrameFacts.sort_index_perm.
  - apply FrameFacts.sorted_NoDup_strict.
    + eapply FrameFacts.StronglySorted_sublist;
        [apply FrameFacts.slice_sublist|apply FrameFacts.sort_index_sorted].
    + apply (sublist_NoDup _ (sort_index idx).*1).
      * by rewrite FrameFacts.sort_index_perm.
      * apply fmap_sublist, FrameFacts.slice_sublist.
Qed.

Lemma daily_slice_inclusive_witness :
  ∃ out,
    _get_daily_info (mock_client AtSubmission) "daily_items" samsung
      (Some (jan 5)) None (start shard_with_ten_days)
    = (Ok out,
       mkWorld shard_with_ten_days
         [CallGetTable "daily_items_info_005930_KOSPI";
          CallListRows (Some (mkTable "daily_items_info_005930_KOSPI" daily_schema));
          CallRowsToDataframe] [])
    ∧ (∀ r, r ∈ out ↔
            r ∈ map (λ d, (jan d, [Int (Z.of_nat (100 + d))]))
                  [3; 1; 10; 7; 2; 9; 4; 6; 5; 8]
            ∧ within (Some (jan 5)) None r.1)
    ∧ StronglySorted date_lt out.*1.
Proof.
  eapply (daily_slice_inclusive (mock_client AtSubmission) (start shard_with_ten_days)
            "daily_items" samsung (Some (jan 5)) None).
  - reflexivity.
  - reflexivity.
  - reflexivity.
  - reflexivity.
  - reflexivity.
  - compute_done.
Defined.

(** The ten rows dated 2024-01-01 to 2024-01-10, read from 2024-01-05:
    the six rows 01-05 to 01-10. *)
Lemma ten_days_from_the_fifth :
  (_get_daily_info (mock_client AtSubmission) "daily_items" samsung
     (Some (jan 5)) None (start shard_with_ten_days)).1
  = Ok (map (λ d, (jan d, [Int (Z.of_nat (100 + d))])) [5; 6; 7; 8; 9; 10]).
Proof. vm_compute. reflexivity. Qed.

(* ===================================================================== *)
(** ** The save path: what [_save_info] calls, and when it stops *)
(* ===================================================================== *)

(** Unfolds every method of the worker down to the answers of the
    client. *)
Ltac run_worker :=
  unfold save_itemcodes_info, save_daily_item_info, save_daily_item_indicator_info,
    get_daily_item_info, get_daily_item_indicator_info,
    get_last_date_of_daily_info, get_itemcodes_info, _get_daily_info,
    delete_duplicated_rows, save_daily_info_all, get_daily_info_all, _save_info,
    get_table_if_exists, try_except, invoke, logger_info, lift,
    mbind, Worker.M_bind, mret, Worker.M_ret;
  simpl.

(** X1. A failure of the table lookup other than [NotFound] is never
    taken for an absent table: the existence probe raises it again, and
    the delete path, the aggregate read and the save path stop at that
    call, submitting no query and creating no table. *)
Theorem lookup_failure_is_not_absence {W RowIterator Job : Type}
    (client : Client W RowIterator Job) (w : world W) (table_name : string)
    (ex : exn) (wh : W) :
  client_get_table client table_name (warehouse w) = (Raise ex, wh) →
  ex ≠ NotFound →
  let stopped := mkWorld wh (calls w ++ [CallGetTable table_name]) (log w) in
  get_table_if_exists client table_name w = (Raise ex, stopped)
  ∧ (∀ start_date_str codeinfo_df,
       delete_duplicated_rows client table_name start_date_str codeinfo_df w
       = (Raise ex, stopped))
  ∧ (∀ codeinfo_df s e,
       get_daily_info_all client table_name codeinfo_df s e w = (Raise ex, stopped))
  ∧ (∀ info_type df wd,
       ¬ is_raise (_extract_schema (dtypes df)) →
       _save_info client info_type table_name df wd w = (Raise ex, stopped)).
Proof.
  intros Hget Hne stopped. repeat split.
  - run_worker. rewrite Hget. by destruct (decide (ex = NotFound)).
  - intros. run_worker. rewrite Hget. by destruct (decide (ex = NotFound)).
  - intros. run_worker. rewrite Hget. by destruct (decide (ex = NotFound)).
  - intros info_type df wd Hsch. run_worker.
    destruct (_extract_schema (dtypes df)) as [sch|]; [|by destruct Hsch]. simpl.
    rewrite Hget. by destruct (decide (ex = NotFound)).
Qed.

Lemma lookup_failure_is_not_absence_witness :
  let stopped := mkWorld tt [CallGetTable "daily_items_all"] [] in
  get_table_if_exists denying_client "daily_items_all" (mkWorld tt [] [])
  = (Raise forbidden, stopped)
  ∧ (∀ start_date_str codeinfo_df,
       delete_duplicated_rows denying_client "daily_items_all" start_date_str
         codeinfo_df (mkWorld tt [] [])
       = (Raise forbidden, stopped))
  ∧ (∀ codeinfo_df s e,
       get_daily_info_all denying_client "daily_items_all" codeinfo_df s e
         (mkWorld tt [] [])
       = (Raise forbidden, stopped))
  ∧ (∀ info_type df wd,
       ¬ is_raise (_extract_schema (dtypes df)) →
       _save_info denying_client info_type "daily_items_all" df wd (mkWorld tt [] [])
       = (Raise forbidden, stopped)).
Proof.
  apply (lookup_failure_is_not_absence denying_client (mkWorld tt [] [])
           "daily_items_all" forbidden tt).
  - reflexivity.
  - discriminate.
Defined.

(** X2. A batch with a column whose local type has no warehouse type is
    rejected before the warehouse is contacted: [_save_info] raises with
    no call made and nothing logged, so no table is created for it. *)
Theorem save_info_unmapped_makes_no_call {W RowIterator Job : Type}
    (client : Client W RowIterator Job) (w : world W)
    (info_type table_name : string) (df : DataFrame) (wd : WriteDisposition)
    (c : string) (d : dtype) :
  (c, d) ∈ dtypes df → ¬ supported d →
  ∃ ex, _save_info client info_type table_name df wd w = (Raise ex, w).
Proof.
  intros Hin Hns.
  assert (is_raise (_extract_schema (dtypes df))) as Hr.
  { unfold _extract_schema.
    apply (SchemaFacts.extract_schema_loop_raises _ c (series_getitem (dtypes df) c)).
    - unfold dict_of_series.
      apply list_elem_of_In, in_map_iff. exists c. split; [done|].
      apply list_elem_of_In, PyFacts.elem_of_unique, list_elem_of_fmap.
      by exists (c, d).
    - by apply (SchemaFacts.unsupported_item_raises _ _ d). }
  run_worker. destruct (_extract_schema (dtypes df)) as [sch|ex]; [done|].
  by exists ex.
Qed.

Lemma save_info_unmapped_makes_no_call_witness :
  ∃ ex, _save_info (mock_client AtSubmission) "daily_items"
          "daily_items_info_005930_KOSPI" (mkFrame frame_with_bool [])
          WRITE_EMPTY (start [])
        = (Raise ex, start []).
Proof.
  apply (save_info_unmapped_makes_no_call (mock_client AtSubmission) (start [])
           "daily_items" "daily_items_info_005930_KOSPI"
           (mkFrame frame_with_bool []) WRITE_EMPTY "halted" (np_dtype "bool")).
  - compute_done.
  - compute_done.
Defined.

(** X3. First load into a table that does not exist: [_save_info]
    creates the table under the given name with the schema inferred from
    the batch, submits the load to the table the warehouse returned, with
    that schema and the given write disposition, awaits the job and
    returns that table; it logs the save, and the date range only when
    the batch has a 'date' column. *)
Theorem save_info_creates_absent_table {W RowIterator Job : Type}
    (client : Client W RowIterator Job) (w : world W)
    (info_type table_name : string) (df : DataFrame) (wd : WriteDisposition)
    (sch : list SchemaField) (created : Table) (job : Job) (wh1 wh2 wh3 wh4 : W) :
  _extract_schema (dtypes df) = Ok sch →
  client_get_table client table_name (warehouse w) = (Raise NotFound, wh1) →
  client_create_table client (mkTable table_name sch) wh1 = (Ok created, wh2) →
  client_load_table_from_dataframe client df created (mkLoadConfig sch wd) wh2
  = (Ok job, wh3) →
  job_result client job wh3 = (Ok tt, wh4) →
  _save_info client info_type table_name df wd w
  = (Ok (Some created),
     mkWorld wh4
       (calls w ++ [CallGetTable table_name; CallCreateTable (mkTable table_name sch);
                    CallLoad df created (mkLoadConfig sch wd); CallJobResult])
       (log w ++ LogSaved (table_id created) info_type
              :: if has_date_column df
                 then [LogDateRange (date_min (date_cells df)) (date_max (date_cells df))]
                 else [])).
Proof.
  intros Hsch Hget Hcreate Hload Hres. run_worker.
  rewrite Hsch. simpl. rewrite Hget. simpl. rewrite Hcreate. simpl.
  rewrite Hload. simpl. rewrite Hres. simpl.
  destruct (has_date_column df); simpl; by rewrite <- !app_assoc.
Qed.

Lemma save_info_creates_absent_table_witness :
  _save_info (mock_client AtSubmission) "daily_items" "daily_items_info_005930_KOSPI"
    five_days WRITE_EMPTY (start [])
  = (Ok (Some (mkTable "daily_items_info_005930_KOSPI" daily_schema)),
     mkWorld
       [mkStored (mkTable "daily_items_info_005930_KOSPI" daily_schema)
          (map daily_row [1; 2; 3; 4; 5])]
       [CallGetTable "daily_items_info_005930_KOSPI";
        CallCreateTable (mkTable "daily_items_info_005930_KOSPI" daily_schema);
        CallLoad five_days (mkTable "daily_items_info_005930_KOSPI" daily_schema)
          (mkLoadConfig daily_schema WRITE_EMPTY);
        CallJobResult]
       [LogSaved "daily_items_info_005930_KOSPI" "daily_items";
        LogDateRange (Some (jan 1)) (Some (jan 5))]).
Proof.
  apply (save_info_creates_absent_table (mock_client AtSubmission) (start [])
           "daily_items" "daily_items_info_005930_KOSPI" five_days WRITE_EMPTY
           daily_schema (mkTable "daily_items_info_005930_KOSPI" daily_schema)
           (Ok tt) []
           [mkStored (mkTable "daily_items_info_005930_KOSPI" daily_schema) []]
           [mkStored (mkTable "daily_items_info_005930_KOSPI" daily_schema)
              (map daily_row [1; 2; 3; 4; 5])]
           [mkStored (mkTable "daily_items_info_005930_KOSPI" daily_schema)
              (map daily_row [1; 2; 3; 4; 5])]);
    reflexivity.
Defined.

(** X4. Load into a table that exists: [_save_info] neither creates nor
    compares anything. It submits the load to the table as found, with
    the schema of the batch, whatever the schema of the table; a
    [Conflict] at the submission is the logged skip, any other exception
    at the submission and any exception at the completion leave the
    method; on success the table as found is returned. *)
Theorem save_info_existing_table {W RowIterator Job : Type}
    (client : Client W RowIterator Job) (w : world W)
    (info_type table_name : string) (df : DataFrame) (wd : WriteDisposition)
    (sch : list SchemaField) (found : Table) (wh1 : W) :
  _extract_schema (dtypes df) = Ok sch →
  client_get_table client table_name (warehouse w) = (Ok found, wh1) →
  let cfg := mkLoadConfig sch wd in
  let submitted := calls w ++ [CallGetTable table_name; CallLoad df found cfg] in
  _save_info client info_type table_name df wd w
  = match client_load_table_from_dataframe client df found cfg wh1 with
    | (Raise ex, wh2) =>
        if decide (ex = Conflict)
        then (Ok None, mkWorld wh2 submitted (log w ++ [LogSkip (table_id found)]))
        else (Raise ex, mkWorld wh2 submitted (log w))
    | (Ok job, wh2) =>
        match job_result client job wh2 with
        | (Raise ex, wh3) =>
            (Raise ex, mkWorld wh3 (submitted ++ [CallJobResult]) (log w))
        | (Ok _, wh3) =>
            (Ok (Some found),
             mkWorld wh3 (submitted ++ [CallJobResult])
               (log w ++ LogSaved (table_id found) info_type
                      :: if has_date_column df
                         then [LogDateRange (date_min (date_cells df))
                                 (date_max (date_cells df))]
                         else []))
        end
    end.
Proof.
  intros Hsch Hget cfg submitted. run_worker. rewrite Hsch. simpl.
  rewrite Hget. simpl. fold cfg.
  destruct (client_load_table_from_dataframe client df found cfg wh1)
    as [[job|ex] wh2]; simpl.
  - destruct (job_result client job wh2) as [[[]|ex] wh3]; simpl.
    + destruct (has_date_column df); simpl; unfold submitted;
        by rewrite <- !app_assoc.
    + unfold submitted. by rewrite <- !app_assoc.
  - destruct (decide (ex = Conflict)); simpl; unfold submitted;
      by rewrite <- !app_assoc.
Qed.

Lemma save_info_existing_table_witness :
  _save_info (mock_client AtSubmission) "daily_items" "daily_items_info_005930_KOSPI"
    five_days WRITE_EMPTY (start other_schema_table)
  = (Ok (Some (mkTable "daily_items_info_005930_KOSPI" [mkField "memo" "STRING"])),
     mkWorld
       [mkStored (mkTable "daily_items_info_005930_KOSPI" [mkField "memo" "STRING"])
          (map daily_row [1; 2; 3; 4; 5])]
       [CallGetTable "daily_items_info_005930_KOSPI";
        CallLoad five_days
          (mkTable "daily_items_info_005930_KOSPI" [mkField "memo" "STRING"])
          (mkLoadConfig daily_schema WRITE_EMPTY);
        CallJobResult]
       [LogSaved "daily_items_info_005930_KOSPI" "daily_items";
        LogDateRange (Some (jan 1)) (Some (jan 5))]).
Proof.
  rewrite (save_info_existing_table (mock_client AtSubmission)
             (start other_schema_table) "daily_items"
             "daily_items_info_005930_KOSPI" five_days WRITE_EMPTY daily_schema
             (mkTable "daily_items_info_005930_KOSPI" [mkField "memo" "STRING"])
             other_schema_table eq_refl eq_refl).
  reflexivity.
Defined.

(** X5. The creation of the table is not guarded: when the lookup finds
    no table and [create_table] raises, a [Conflict] from a concurrent
    creation included, the exception leaves [_save_info], no load is
    submitted and nothing is logged. *)
Theorem save_info_create_failure_propagates {W RowIterator Job : Type}
    (client : Client W RowIterator Job) (w : world W)
    (info_type table_name : string) (df : DataFrame) (wd : WriteDisposition)
    (sch : list SchemaField) (ex : exn) (wh1 wh2 : W) :
  _extract_schema (dtypes df) = Ok sch →
  client_get_table client table_name (warehouse w) = (Raise NotFound, wh1) →
  client_create_table client (mkTable table_name sch) wh1 = (Raise ex, wh2) →
  _save_info client info_type table_name df wd w
  = (Raise ex,
     mkWorld wh2
       (calls w ++ [CallGetTable table_name; CallCreateTable (mkTable table_name sch)])
       (log w)).
Proof.
  intros Hsch Hget Hcreate. run_worker. rewrite Hsch. simpl.
  rewrite Hget. simpl. rewrite Hcreate. simpl. by rewrite <- !app_assoc.
Qed.

Lemma save_info_create_failure_propagates_witness :
  _save_info racing_client "daily_items" "daily_items_info_005930_KOSPI"
    five_days WRITE_EMPTY (start [])
  = (Raise Conflict,
     mkWorld []
       [CallGetTable "daily_items_info_005930_KOSPI";
        CallCreateTable (mkTable "daily_items_info_005930_KOSPI" daily_schema)]
       []).
Proof.
  apply (save_info_create_failure_propagates racing_client (start [])
           "daily_items" "daily_items_info_005930_KOSPI" five_days WRITE_EMPTY
           daily_schema Conflict [] []);
    reflexivity.
Defined.

(* ===================================================================== *)
(** ** The schema mapper, backwards *)
(* ===================================================================== *)

Module BackwardFacts.


(** The six keys of the forward table with the local type each one is
    read back as. *)
Lemma forward_cases (d : dtype) (ft : string) :
  forward d = Some ft →
  ∃ d', assoc ft dtypes_type_map = Some d'
    ∧ (d = np_dtype "object" ∧ d' = np_dtype "object"
       ∨ d = np_dtype "int32" ∧ d' = np_dtype "int64"
       ∨ d = np_dtype "int64" ∧ d' = np_dtype "int64"
       ∨ d = np_dtype "float64" ∧ d' = np_dtype "float64"
       ∨ d = np_dtype "datetime64[ns]" ∧ d' = np_dtype "datetime64[ns]"
       ∨ d = DatetimeTZDtype "ns" "UTC" ∧ d' = np_dtype "datetime64[ns]").
Proof.
  intros H. unfold forward, schema_type_map in H. simpl in H.
  repeat match type of H with
         | context [decide (d = ?x)] =>
             destruct (decide (d = x)) as [->|?];
             [injection H as <-; eexists; split; [reflexivity|tauto]|]
         end.
  discriminate.
Qed.

End BackwardFacts.



(** X7. The round trip is not the identity on local types. For a frame
    with distinct labels and supported types, the types read back from
    the created table cover exactly the columns of the frame; a column
    comes back with its own type exactly when that type is object, int64,
    float64 or datetime64[ns]; an int32 column comes back as int64 and a
    UTC-aware datetime column as a naive datetime64[ns]. *)
Theorem round_trip_normalises_local_types (df_dtypes : dtypes_series)
    (table_name : string) :
  NoDup df_dtypes.*1 →
  Forall (λ p, supported p.2) df_dtypes →
  ∃ sch dts,
    _extract_schema df_dtypes = Ok sch
    ∧ _extract_dtypes (Some (mkTable table_name sch)) = Ok dts
    ∧ (∀ c, is_Some (dts !! c) ↔ c ∈ df_dtypes.*1)
    ∧ ∀ c d, (c, d) ∈ df_dtypes →
        (dts !! c = Some d
         ↔ d ∈ [np_dtype "object"; np_dtype "int64"; np_dtype "float64";
                np_dtype "datetime64[ns]"])
        ∧ (d = np_dtype "int32" → dts !! c = Some (np_dtype "int64"))
        ∧ (d = DatetimeTZDtype "ns" "UTC"
           → dts !! c = Some (np_dtype "datetime64[ns]")).
Proof.
  intros Hnd Hsup.
  destruct (SchemaFacts.extract_schema_scalars df_dtypes Hsup) as (sch & Hsch & Hall).
  destruct (SchemaFacts.extract_dtypes_loop_ok df_dtypes sch ∅ Hall)
    as (dts & Hdts & Hout & Hin).
  assert (∀ c d, (c, d) ∈ df_dtypes →
            ∃ ft d', forward d = Some ft ∧ dts !! c = Some d'
                     ∧ assoc ft dtypes_type_map = Some d') as Hcol.
  { intros c d Hcd. destruct (Hin Hnd c d Hcd) as (ft & Hfw & _ & Hl).
    destruct (BackwardFacts.forward_cases d ft Hfw) as (d' & Hb & _).
    exists ft, d'. by rewrite Hl. }
  exists sch, dts. split.
  { unfold _extract_schema. by rewrite SchemaFacts.dict_of_series_NoDup. }
  split; [done|]. split.
  - intros c. split.
    + intros Hsome. destruct (decide (c ∈ df_dtypes.*1)) as [|Hc]; [done|].
      rewrite (Hout c Hc), lookup_empty in Hsome. by destruct Hsome.
    + intros [[c' d] [-> Hcd]]%list_elem_of_fmap. simpl.
      destruct (Hcol c' d Hcd) as (ft & d' & _ & -> & _). by eexists.
  - intros c d Hcd.
    destruct (Hcol c d Hcd) as (ft & d' & Hfw & Hl & Hb).
    destruct (BackwardFacts.forward_cases d ft Hfw) as (d2 & Hb2 & Hcases).
    rewrite Hb in Hb2. injection Hb2 as <-. rewrite Hl.
    destruct Hcases as [[-> ->]|[[-> ->]|[[-> ->]|[[-> ->]|[[-> ->]|[-> ->]]]]]];
      (split; [split; [first [intros _; compute_done | discriminate]
                      |first [done | intros Hm; exfalso; revert Hm; compute_done]]
              |split; intros; first [done | discriminate]]).
Qed.

Lemma round_trip_normalises_local_types_witness :
  ∃ sch dts,
    _extract_schema all_supported_columns = Ok sch
    ∧ _extract_dtypes (Some (mkTable "itemcodes_info" sch)) = Ok dts
    ∧ (∀ c, is_Some (dts !! c) ↔ c ∈ all_supported_columns.*1)
    ∧ ∀ c d, (c, d) ∈ all_supported_columns →
        (dts !! c = Some d
         ↔ d ∈ [np_dtype "object"; np_dtype "int64"; np_dtype "float64";
                np_dtype "datetime64[ns]"])
        ∧ (d = np_dtype "int32" → dts !! c = Some (np_dtype "int64"))
        ∧ (d = DatetimeTZDtype "ns" "UTC"
           → dts !! c = Some (np_dtype "datetime64[ns]")).
Proof.
  apply (round_trip_normalises_local_types all_supported_columns "itemcodes_info").
  - compute_done.
  - compute_done.
Defined.

(* ===================================================================== *)
(** ** The aggregate of the shards, and the last date *)
(* ===================================================================== *)

Module TextFacts.

#[local] Arguments String.append : simpl nomatch.

Lemma length_append (a b : string) :
  String.length (a +:+ b) = String.length a + String.length b.
Proof. induction a as [|c a IH]; simpl; [done|]. by rewrite IH. Qed.

(** A common suffix cancels. *)
Lemma append_inv_tail (a b x : string) : a +:+ x = b +:+ x → a = b.
Proof.
  revert b. induction a as [|c a IH]; intros [|c' b]; simpl; intros Heq.
  - done.
  - apply (f_equal String.length) in Heq. simpl in Heq.
    rewrite length_append in Heq. lia.
  - apply (f_equal String.length) in Heq. simpl in Heq.
    rewrite length_append in Heq. lia.
  - injection Heq as -> Heq. by rewrite (IH b Heq).
Qed.

Lemma filter_map {A B} (f : A → B) (P : B → Prop) `{∀ y, Decision (P y)}
    (l : list A) :
  filter P (map f l) = map f (filter (λ x, P (f x)) l).
Proof.
  induction l as [|x l IH]; [done|]. simpl.
  rewrite !filter_cons. destruct (decide (P (f x))); simpl; by rewrite IH.
Qed.

Lemma last_date_template_lines (T clause : string) :
  last_date_template T clause
  = join nl [""; spaces 12 +:+ "SELECT MAX(date) lastdate";
             spaces 12 +:+ "FROM stock." +:+ T; spaces 12 +:+ clause; spaces 8].
Proof.
  unfold last_date_template, join. cbn [String.concat].
  rewrite !SqlFacts.append_assoc. reflexivity.
Qed.

Lemma dedent_last_date (T clause : string) :
  no_newline T = true → no_newline clause = true →
  (clause = "" ∨ ∃ x, clause = "WHERE itemname in (" +:+ x) →
  dedent (last_date_template T clause)
  = join nl [""; "SELECT MAX(date) lastdate"; "FROM stock." +:+ T; clause; ""].
Proof.
  intros HT Hc Hform. unfold dedent.
  rewrite last_date_template_lines, SqlFacts.split_lines_join.
  - destruct Hform as [->|[x ->]]; lazy; reflexivity.
  - repeat constructor; rewrite ?SqlFacts.no_newline_app, ?HT, ?Hc; done.
Qed.

Lemma no_newline_unique_names (df : list ItemcodeInfo) :
  Forall (λ r, no_newline (itemname r) = true) df →
  no_newline (delete_itemnames_str df) = true.
Proof.
  intros Hn. unfold delete_itemnames_str.
  apply SqlFacts.no_newline_join; [done|].
  apply Forall_forall. intros x [y [<- Hy]]%list_elem_of_In%in_map_iff.
  apply SqlFacts.no_newline_quoted.
  apply (proj2 (list_elem_of_In _ _)) in Hy.
  apply (proj1 (PyFacts.elem_of_unique _ _)) in Hy.
  apply (proj1 (list_elem_of_In _ _)) in Hy.
  apply (proj1 (in_map_iff _ _ _)) in Hy as [r [<- Hr]].
  rewrite Forall_forall in Hn. by apply Hn, list_elem_of_In.
Qed.

End TextFacts.

(** X8. The aggregate path looks for the tables of the save paths exactly
    when it is given their prefix: the name it resolves for an instrument
    is the table of [save_daily_item_info] if and only if info_type is
    'daily_items_info', and the table of [save_daily_item_indicator_info]
    if and only if info_type is 'daily_items_indicator_info'; in general
    info_type + '_info' resolves to the shard of info_type. *)
Theorem aggregate_resolves_saved_shards (info_type : string) (i : ItemcodeInfo) :
  (union_member_name info_type i = daily_item_table_name i
   ↔ info_type = "daily_items_info")
  ∧ (union_member_name info_type i = daily_item_indicator_table_name i
     ↔ info_type = "daily_items_indicator_info")
  ∧ union_member_name (info_type +:+ "_info") i
    = shard_name info_type (itemcode i) (market i).
Proof.
  split; [|split].
  - split; [|by intros ->].
    change (daily_item_table_name i)
      with ("daily_items_info" +:+ "_" +:+ itemcode i +:+ "_" +:+ market i).
    apply TextFacts.append_inv_tail.
  - split; [|by intros ->].
    change (daily_item_indicator_table_name i)
      with ("daily_items_indicator_info" +:+ "_" +:+ itemcode i +:+ "_" +:+ market i).
    apply TextFacts.append_inv_tail.
  - unfold union_member_name, shard_name.
    by rewrite SqlFacts.append_assoc.
Qed.

(** X9. [save_daily_info_all] submits one query and awaits it: the join
    by UNION ALL of one SELECT block per row of the reference frame whose
    resolved table is in the listing, in row order, a repeated row giving
    a repeated block and a row without a table giving none; each block
    carries the date bounds and no instrument clause; the destination is
    {info_type}_all with the given write disposition, and the name of the
    destination is returned. *)
Theorem save_daily_info_all_unions_listed_shards {W RowIterator Job : Type}
    (client : Client W RowIterator Job) (w : world W)
    (info_type : string) (codeinfo_df : list ItemcodeInfo)
    (wd : WriteDisposition) (s e : option date)
    (listing : list string) (wh1 : W) :
  client_list_tables client (warehouse w) = (Ok listing, wh1) →
  Forall (λ r, no_newline (union_member_name info_type r) = true) codeinfo_df →
  let members := filter (λ r, union_member_name info_type r ∈ listing) codeinfo_df in
  let sql :=
    join "UNION ALL"
      (map (λ r, nl +:+ "SELECT *" +:+ nl
                 +:+ "FROM stock." +:+ union_member_name info_type r +:+ nl
                 +:+ union_where_clause s e +:+ nl) members) in
  let cfg := mkQueryConfig wd (result_table_name info_type) in
  let submitted := calls w ++ [CallListTables; CallQuery sql (Some cfg)] in
  save_daily_info_all client info_type codeinfo_df wd s e w
  = match client_query client sql (Some cfg) wh1 with
    | (Raise ex, wh2) => (Raise ex, mkWorld wh2 submitted (log w))
    | (Ok job, wh2) =>
        match job_result client job wh2 with
        | (Raise ex, wh3) =>
            (Raise ex, mkWorld wh3 (submitted ++ [CallJobResult]) (log w))
        | (Ok _, wh3) =>
            (Ok (result_table_name info_type),
             mkWorld wh3 (submitted ++ [CallJobResult]) (log w))
        end
    end.
Proof.
  intros Hlist Hlines members sql cfg submitted. run_worker. rewrite Hlist. simpl.
  rewrite TextFacts.filter_map. fold members.
  assert (union_query (map (union_member_name info_type) members) s e = sql) as ->.
  { rewrite SqlFacts.union_query_text.
    - unfold sql. f_equal. rewrite map_map. apply map_ext. intros r.
      unfold join. cbn [String.concat]. by rewrite !SqlFacts.append_assoc.
    - apply Forall_forall. intros x [r [<- Hr]]%list_elem_of_In%in_map_iff.
      rewrite Forall_forall in Hlines. apply Hlines.
      apply (proj2 (list_elem_of_In _ _)) in Hr.
      by apply list_elem_of_filter in Hr as [_ Hr]. }
  fold cfg.
  destruct (client_query client sql (Some cfg) wh1) as [[job|ex] wh2]; simpl.
  - destruct (job_result client job wh2) as [[[]|ex] wh3]; simpl;
      unfold submitted; by rewrite <- !app_assoc.
  - unfold submitted. by rewrite <- !app_assoc.
Qed.

Lemma save_daily_info_all_unions_listed_shards_witness :
  save_daily_info_all (mock_client AtSubmission) "daily_items_info"
    [samsung; naver; kakao; samsung] WRITE_TRUNCATE None (Some (jan 31))
    (start two_shards)
  = (Ok "daily_items_info_all",
     mkWorld two_shards
       [CallListTables;
        CallQuery
          (nl +:+ "SELECT *" +:+ nl +:+ "FROM stock.daily_items_info_005930_KOSPI"
           +:+ nl +:+ "WHERE date <= '2024-01-31'" +:+ nl +:+ "UNION ALL"
           +:+ nl +:+ "SELECT *" +:+ nl +:+ "FROM stock.daily_items_info_035720_KOSPI"
           +:+ nl +:+ "WHERE date <= '2024-01-31'" +:+ nl +:+ "UNION ALL"
           +:+ nl +:+ "SELECT *" +:+ nl +:+ "FROM stock.daily_items_info_005930_KOSPI"
           +:+ nl +:+ "WHERE date <= '2024-01-31'" +:+ nl)
          (Some (mkQueryConfig WRITE_TRUNCATE "daily_items_info_all"));
        CallJobResult] []).
Proof.
  rewrite (save_daily_info_all_unions_listed_shards (mock_client AtSubmission)
             (start two_shards) "daily_items_info" [samsung; naver; kakao; samsung]
             WRITE_TRUNCATE None (Some (jan 31))
             ["daily_items_info_005930_KOSPI"; "daily_items_info_035720_KOSPI"]
             two_shards eq_refl).
  - vm_compute. reflexivity.
  - repeat constructor.
Defined.

(** X10. [get_last_date_of_daily_info] makes no existence probe. It
    submits one query, SELECT MAX(date) lastdate over the table, with the
    restriction of itemname to the unique names of the frame when a frame
    is given, reads the answer with column lastdate as datetime64[ns],
    and returns the first cell of that column; an exception of the query
    leaves the method, and an answer without rows raises [KeyError]. *)
Theorem last_date_is_one_query {W RowIterator Job : Type}
    (client : Client W RowIterator Job) (w : world W)
    (table_name : string) (codeinfo_df : option (list ItemcodeInfo)) :
  let sql := last_date_query table_name codeinfo_df in
  let dts : gmap string dtype := {["lastdate" := np_dtype "datetime64[ns]"]} in
  get_last_date_of_daily_info client table_name codeinfo_df w
  = match client_query client sql None (warehouse w) with
    | (Raise ex, wh1) => (Raise ex, mkWorld wh1 (calls w ++ [CallQuery sql None]) (log w))
    | (Ok job, wh1) =>
        match query_to_dataframe client job dts wh1 with
        | (Raise ex, wh2) =>
            (Raise ex,
             mkWorld wh2 (calls w ++ [CallQuery sql None; CallQueryToDataframe]) (log w))
        | (Ok df, wh2) =>
            (match position "lastdate" (dtypes df).*1, rows df with
             | None, _ =>
                 Raise (AttributeError "'DataFrame' object has no attribute 'lastdate'")
             | Some _, [] => Raise (KeyError "0")
             | Some pos, r :: _ => Ok (nth pos r Null)
             end,
             mkWorld wh2 (calls w ++ [CallQuery sql None; CallQueryToDataframe]) (log w))
        end
    end
  ∧ (no_newline table_name = true → one_line_names codeinfo_df →
     sql = nl +:+ "SELECT MAX(date) lastdate" +:+ nl
           +:+ "FROM stock." +:+ table_name +:+ nl
           +:+ match codeinfo_df with
               | Some df =>
                   "WHERE itemname in ("
                   +:+ join ", " (map quoted (unique (map itemname df))) +:+ ")"
               | None => ""
               end +:+ nl).
Proof.
  intros sql dts. split.
  - run_worker. fold sql.
    destruct (client_query client sql None (warehouse w)) as [[job|ex] wh1]; simpl;
      [|done].
    fold dts.
    destruct (query_to_dataframe client job dts wh1) as [[df|ex] wh2]; simpl.
    + rewrite <- !app_assoc. unfold first_cell.
      by destruct (position "lastdate" (dtypes df).*1), (rows df).
    + by rewrite <- !app_assoc.
  - intros HT Hn. unfold sql, last_date_query.
    rewrite TextFacts.dedent_last_date; [|done| |].
    + unfold join. cbn [String.concat]. rewrite !SqlFacts.append_assoc.
      by destruct codeinfo_df.
    + destruct codeinfo_df as [df|]; [|done]. simpl.
      by rewrite !SqlFacts.no_newline_app, TextFacts.no_newline_unique_names.
    + destruct codeinfo_df as [df|]; [right|by left].
      by exists (delete_itemnames_str df +:+ ")").
Qed.

Lemma last_date_is_one_query_witness :
  get_last_date_of_daily_info (answering_client last_date_answer)
    "daily_items_info_all" (Some [samsung; kakao; samsung]) (start [])
  = (Ok (Day (mkDate 2024 1 10)),
     mkWorld []
       [CallQuery
          (nl +:+ "SELECT MAX(date) lastdate" +:+ nl
           +:+ "FROM stock.daily_items_info_all" +:+ nl
           +:+ "WHERE itemname in ('Samsung', 'Kakao')" +:+ nl)
          None;
        CallQueryToDataframe] []).
Proof.
  pose proof (last_date_is_one_query (answering_client last_date_answer) (start [])
                "daily_items_info_all" (Some [samsung; kakao; samsung]))
    as [Hrun Htext].
  rewrite Hrun, Htext; [reflexivity|reflexivity|repeat constructor].
Defined.

(* ===================================================================== *)
(** ** Single-shard reads: slices as filters *)
(* ===================================================================== *)

Module SliceFacts.

Lemma filter_none {A} (P : A → Prop) `{∀ x, Decision (P x)} (l : list A) :
  Forall (λ x, ¬ P x) l → filter P l = [].
Proof.
  induction 1 as [|x l Hx _ IH]; [done|]. by rewrite filter_cons_False.
Qed.

(** On a sorted index the slice from [s] is the filter by [s <= date]. *)
Lemma loc_from_filter (s : date) (l : indexed) :
  StronglySorted by_date l →
  loc_from s l = filter (λ r : date * list cell, date_le s r.1) l.
Proof.
  induction 1 as [|x l Hs IH Hall]; [done|]. simpl.
  destruct (date_ltb x.1 s) eqn:Hxs.
  - rewrite filter_cons_False; [done|].
    intros Hle. revert Hxs Hle. clear. destruct x as [d c]. simpl.
    FrameFacts.date_order.
  - apply FrameFacts.date_ltb_false in Hxs.
    rewrite filter_cons_True by done. f_equal. symmetry.
    apply PyFacts.filter_all. eapply Forall_impl; [exact Hall|].
    intros y Hy. unfold by_date in Hy. by eapply FrameFacts.date_le_trans.
Qed.

(** On a sorted index the slice up to [e] is the filter by [date <= e]. *)
Lemma loc_to_filter (e : date) (l : indexed) :
  StronglySorted by_date l →
  loc_to e l = filter (λ r : date * list cell, date_le r.1 e) l.
Proof.
  induction 1 as [|x l Hs IH Hall]; [done|]. simpl.
  destruct (date_leb x.1 e) eqn:Hxe.
  - rewrite filter_cons_True by done. by rewrite IH.
  - rewrite filter_cons_False by (unfold date_le; congruence).
    symmetry. apply filter_none. eapply Forall_impl; [exact Hall|].
    intros y Hy Hye. unfold by_date in Hy.
    assert (date_le x.1 e) as Hx by (by eapply FrameFacts.date_le_trans).
    unfold date_le in Hx. congruence.
Qed.

Lemma slice_filter (start_date end_date : option date) (l : indexed) :
  StronglySorted by_date l →
  slice start_date end_date l
  = filter (λ r : date * list cell, within start_date end_date r.1) l.
Proof.
  intros Hs. unfold slice.
  assert (StronglySorted by_date
            match start_date with Some s => loc_from s l | None => l end) as Hs'.
  { destruct start_date; [|done].
    eapply FrameFacts.StronglySorted_sublist; [apply FrameFacts.loc_from_sublist|done]. }
  destruct end_date as [e|], start_date as [s|]; unfold within.
  - rewrite loc_to_filter, loc_from_filter by done.
    rewrite list_filter_filter. apply list_filter_iff. intros r. tauto.
  - rewrite loc_to_filter by done. apply list_filter_iff. intros r. tauto.
  - rewrite loc_from_filter by done. apply list_filter_iff. intros r. tauto.
  - symmetry. apply PyFacts.filter_all, Forall_forall. by intros.
Qed.

Lemma position_absent (label : string) (labels : list string) :
  label ∉ labels → position label labels = None.
Proof.
  induction labels as [|l labels IH]; [done|]. intros Hn. simpl.
  destruct (decide (label = l)) as [->|_]; [exfalso; apply Hn; left|].
  rewrite IH; [done|]. intros Hin. apply Hn. by right.
Qed.

End SliceFacts.

(** X11. A single-shard read loses and repeats no row, whether dates
    repeat or not: what it returns is, up to order, the rows of the table
    whose date passes the bounds given, all rows when none is given, and
    it is in increasing order of date. *)
Theorem daily_read_is_filter {W RowIterator Job : Type}
    (client : Client W RowIterator Job) (w : world W)
    (info_type : string) (item : ItemcodeInfo) (s e : option date)
    (t : Table) (it : RowIterator) (dts : gmap string dtype) (df : DataFrame)
    (idx : indexed) (wh1 wh2 wh3 : W) :
  let shard := shard_name info_type (itemcode item) (market item) in
  client_get_table client shard (warehouse w) = (Ok t, wh1) →
  client_list_rows client (Some t) wh1 = (Ok it, wh2) →
  _extract_dtypes (Some t) = Ok dts →
  rows_to_dataframe client it dts wh2 = (Ok df, wh3) →
  set_index_date df = Ok idx →
  ∃ out,
    (_get_daily_info client info_type item s e w).1 = Ok out
    ∧ out ≡ₚ filter (λ r : date * list cell, within s e r.1) idx
    ∧ StronglySorted by_date out
    ∧ (s = None → e = None → out ≡ₚ idx).
Proof.
  intros shard Hget Hrows Hdts Hdf Hidx.
  exists (slice s e (sort_index idx)). split; [|split; [|split]].
  - run_worker. fold shard. rewrite Hget. simpl. rewrite Hrows. simpl.
    replace (extract_dtypes_loop (schema t) ∅) with (Ok dts) by done. simpl.
    rewrite Hdf. simpl. by rewrite Hidx.
  - rewrite SliceFacts.slice_filter by apply FrameFacts.sort_index_sorted.
    by rewrite FrameFacts.sort_index_perm.
  - eapply FrameFacts.StronglySorted_sublist;
      [apply FrameFacts.slice_sublist|apply FrameFacts.sort_index_sorted].
  - intros -> ->. apply FrameFacts.sort_index_perm.
Qed.

Lemma daily_read_is_filter_witness :
  ∃ out,
    (_get_daily_info (mock_client AtSubmission) "daily_items" samsung
       (Some (jan 3)) (Some (jan 4)) (start shard_with_repeated_day)).1 = Ok out
    ∧ out ≡ₚ filter (λ r : date * list cell, within (Some (jan 3)) (Some (jan 4)) r.1)
               [(jan 4, [Int 104]); (jan 3, [Int 7]); (jan 2, [Int 102]);
                (jan 3, [Int 8])]
    ∧ StronglySorted by_date out
    ∧ (Some (jan 3) = None → Some (jan 4) = None →
       out ≡ₚ [(jan 4, [Int 104]); (jan 3, [Int 7]); (jan 2, [Int 102]);
               (jan 3, [Int 8])]).
Proof.
  eapply (daily_read_is_filter (mock_client AtSubmission)
            (start shard_with_repeated_day) "daily_items" samsung
            (Some (jan 3)) (Some (jan 4))); reflexivity.
Defined.

(** X12. Bounds in the wrong order are no error: a single-shard read with
    end_date before start_date returns the empty frame. *)
Theorem daily_read_reversed_bounds {W RowIterator Job : Type}
    (client : Client W RowIterator Job) (w : world W)
    (info_type : string) (item : ItemcodeInfo) (a b : date)
    (t : Table) (it : RowIterator) (dts : gmap string dtype) (df : DataFrame)
    (idx : indexed) (wh1 wh2 wh3 : W) :
  let shard := shard_name info_type (itemcode item) (market item) in
  client_get_table client shard (warehouse w) = (Ok t, wh1) →
  client_list_rows client (Some t) wh1 = (Ok it, wh2) →
  _extract_dtypes (Some t) = Ok dts →
  rows_to_dataframe client it dts wh2 = (Ok df, wh3) →
  set_index_date df = Ok idx →
  date_lt b a →
  (_get_daily_info client info_type item (Some a) (Some b) w).1 = Ok [].
Proof.
  intros shard Hget Hrows Hdts Hdf Hidx Hlt.
  run_worker. fold shard. rewrite Hget. simpl. rewrite Hrows. simpl.
  replace (extract_dtypes_loop (schema t) ∅) with (Ok dts) by done. simpl.
  rewrite Hdf. simpl. rewrite Hidx. simpl. f_equal.
  change (loc_to b (loc_from a (sort_index idx)))
    with (slice (Some a) (Some b) (sort_index idx)).
  rewrite SliceFacts.slice_filter by apply FrameFacts.sort_index_sorted.
  apply SliceFacts.filter_none, Forall_forall.
  intros [d c] _ [Hs He]. simpl in *.
  assert (date_le a b) as Hab by (by eapply FrameFacts.date_le_trans).
  apply FrameFacts.date_lt_iff in Hlt as [Hba Hne].
  apply Hne. by apply FrameFacts.date_le_antisym.
Qed.

Lemma daily_read_reversed_bounds_witness :
  (_get_daily_info (mock_client AtSubmission) "daily_items" samsung
     (Some (jan 8)) (Some (jan 3)) (start shard_with_ten_days)).1 = Ok [].
Proof.
  eapply (daily_read_reversed_bounds (mock_client AtSubmission)
            (start shard_with_ten_days) "daily_items" samsung (jan 8) (jan 3));
    reflexivity.
Defined.

(** X13. A shard read needs a column named 'date': when the frame built
    from the rows has none, [_get_daily_info] raises [KeyError] for
    'date', after the rows have been fetched. *)
Theorem daily_read_needs_date_column {W RowIterator Job : Type}
    (client : Client W RowIterator Job) (w : world W)
    (info_type : string) (item : ItemcodeInfo) (s e : option date)
    (t : Table) (it : RowIterator) (dts : gmap string dtype) (df : DataFrame)
    (wh1 wh2 wh3 : W) :
  let shard := shard_name info_type (itemcode item) (market item) in
  client_get_table client shard (warehouse w) = (Ok t, wh1) →
  client_list_rows client (Some t) wh1 = (Ok it, wh2) →
  _extract_dtypes (Some t) = Ok dts →
  rows_to_dataframe client it dts wh2 = (Ok df, wh3) →
  "date" ∉ (dtypes df).*1 →
  _get_daily_info client info_type item s e w
  = (Raise (KeyError "date"),
     mkWorld wh3
       (calls w ++ [CallGetTable shard; CallListRows (Some t); CallRowsToDataframe])
       (log w)).
Proof.
  intros shard Hget Hrows Hdts Hdf Hno.
  run_worker. fold shard. rewrite Hget. simpl. rewrite Hrows. simpl.
  replace (extract_dtypes_loop (schema t) ∅) with (Ok dts) by done. simpl.
  rewrite Hdf. simpl. unfold set_index_date.
  rewrite SliceFacts.position_absent by done. simpl.
  by rewrite <- !app_assoc.
Qed.

Lemma daily_read_needs_date_column_witness :
  _get_daily_info (mock_client AtSubmission) "daily_items" samsung None None
    (start undated_table)
  = (Raise (KeyError "date"),
     mkWorld undated_table
       [CallGetTable "daily_items_info_005930_KOSPI";
        CallListRows
          (Some (mkTable "daily_items_info_005930_KOSPI"
                   [mkField "day" "DATE"; mkField "close" "INTEGER"]));
        CallRowsToDataframe] []).
Proof.
  eapply (daily_read_needs_date_column (mock_client AtSubmission)
            (start undated_table) "daily_items" samsung None None).
  - reflexivity.
  - reflexivity.
  - reflexivity.
  - reflexivity.
  - compute_done.
Defined.

(* ===================================================================== *)
(** ** Saving, then reading, against the in-memory warehouse *)
(* ===================================================================== *)

Module MockFacts.

Lemma find_table_app_fresh (table_name : string) (w : list stored)
    (sch : list SchemaField) (rs : list (list cell)) :
  find_table table_name w = None →
  find_table table_name (w ++ [mkStored (mkTable table_name sch) rs])
  = Some (mkStored (mkTable table_name sch) rs).
Proof.
  induction w as [|x w IH]; simpl.
  - intros _. by destruct (decide (table_name = table_name)).
  - destruct (decide (table_id (stored_table x) = table_name)); [done|]. apply IH.
Qed.

Lemma set_rows_app_fresh (table_name : string) (w : list stored)
    (sch : list SchemaField) (rs0 rs : list (list cell)) :
  find_table table_name w = None →
  set_rows table_name rs (w ++ [mkStored (mkTable table_name sch) rs0])
  = w ++ [mkStored (mkTable table_name sch) rs].
Proof.
  induction w as [|x w IH]; simpl.
  - intros _. by destruct (decide (table_name = table_name)).
  - destruct (decide (table_id (stored_table x) = table_name)); [done|].
    intros H. by rewrite IH.
Qed.

(** The first load into a table the in-memory warehouse does not hold:
    whatever the write disposition, the table is there afterwards with
    the inferred schema and the rows of the batch. *)
Lemma mock_save_fresh (report : conflict_report) (info_type table_name : string)
    (df : DataFrame) (wd : WriteDisposition) (w : world (list stored))
    (sch : list SchemaField) :
  _extract_schema (dtypes df) = Ok sch →
  find_table table_name (warehouse w) = None →
  ∃ cs lg,
    _save_info (mock_client report) info_type table_name df wd w
    = (Ok (Some (mkTable table_name sch)),
       mkWorld (warehouse w ++ [mkStored (mkTable table_name sch) (rows df)]) cs lg).
Proof.
  intros Hsch Hfind. run_worker. rewrite Hsch. simpl.
  unfold mock_get_table. rewrite Hfind. simpl.
  unfold mock_create_table. simpl. rewrite Hfind. simpl.
  unfold mock_load. simpl. rewrite find_table_app_fresh by done. simpl.
  destruct wd; simpl; rewrite set_rows_app_fresh by done;
    destruct (has_date_column df); simpl; by do 2 eexists.
Qed.

Lemma fetched_labels (s : dtypes_series) (sch : list SchemaField)
    (dts : gmap string dtype) (rs : list (list cell)) :
  Forall2 (λ p f, name f = p.1 ∧ forward p.2 = Some (field_type f)) s sch →
  (dtypes (fetched sch dts rs)).*1 = s.*1.
Proof.
  unfold fetched. simpl.
  induction 1 as [|p f s sch [Hn _] _ IH]; [done|].
  simpl. rewrite Hn. f_equal. exact IH.
Qed.

End MockFacts.

Module RoundTripFacts.

(** A single-shard read of a table the in-memory warehouse holds. *)
Lemma mock_read_daily (report : conflict_report) (info_type : string)
    (item : ItemcodeInfo) (s e : option date) (w0 : list stored)
    (sch : list SchemaField) (rs : list (list cell)) (dts : gmap string dtype)
    (cs : list call) (lg : list log_entry) :
  let shard := shard_name info_type (itemcode item) (market item) in
  find_table shard w0 = None →
  _extract_dtypes (Some (mkTable shard sch)) = Ok dts →
  (_get_daily_info (mock_client report) info_type item s e
     (mkWorld (w0 ++ [mkStored (mkTable shard sch) rs]) cs lg)).1
  = (idx ← set_index_date (fetched sch dts rs); Ok (slice s e (sort_index idx))).
Proof.
  intros shard Hfind Hdts. run_worker. fold shard.
  unfold mock_get_table. rewrite MockFacts.find_table_app_fresh by done. simpl.
  unfold mock_list_rows. simpl. rewrite MockFacts.find_table_app_fresh by done. simpl.
  replace (extract_dtypes_loop sch ∅) with (Ok dts) by done. simpl.
  fold (fetched sch dts rs).
  by destruct (set_index_date (fetched sch dts rs)).
Qed.

(** A read of the reference table the in-memory warehouse holds. *)
Lemma mock_read_itemcodes (report : conflict_report) (w0 : list stored)
    (sch : list SchemaField) (rs : list (list cell)) (dts : gmap string dtype)
    (cs : list call) (lg : list log_entry) :
  find_table "itemcodes_info" w0 = None →
  _extract_dtypes (Some (mkTable "itemcodes_info" sch)) = Ok dts →
  (get_itemcodes_info (mock_client report)
     (mkWorld (w0 ++ [mkStored (mkTable "itemcodes_info" sch) rs]) cs lg)).1
  = Ok (fetched sch dts rs).
Proof.
  intros Hfind Hdts. run_worker.
  unfold mock_get_table. rewrite MockFacts.find_table_app_fresh by done. simpl.
  unfold mock_list_rows. simpl. rewrite MockFacts.find_table_app_fresh by done. simpl.
  replace (extract_dtypes_loop sch ∅) with (Ok dts) by done. done.
Qed.

(** Setting the index looks at the labels and the rows only. *)
Lemma set_index_date_fetched (df : DataFrame) (sch : list SchemaField)
    (dts : gmap string dtype) :
  Forall2 (λ p f, name f = p.1 ∧ forward p.2 = Some (field_type f)) (dtypes df) sch →
  set_index_date (fetched sch dts (rows df)) = set_index_date df.
Proof.
  intros Hall. unfold set_index_date.
  by rewrite (MockFacts.fetched_labels (dtypes df)).
Qed.

End RoundTripFacts.

(** X14. What a save method stores under an instrument, the matching read
    method finds: against the in-memory warehouse, after
    [save_daily_item_info] (or [save_daily_item_indicator_info]) of a
    batch with distinct labels and supported types into a shard that did
    not exist, [get_daily_item_info] (or the indicator read) of the same
    instrument returns the rows of the batch indexed by date, sorted, and
    cut to the bounds. *)
Theorem saved_shard_reads_back (report : conflict_report) (w0 : list stored)
    (item : ItemcodeInfo) (df : DataFrame) (wd : WriteDisposition)
    (s e : option date) (idx : indexed) :
  find_table (daily_item_table_name item) w0 = None →
  find_table (daily_item_indicator_table_name item) w0 = None →
  NoDup (dtypes df).*1 →
  Forall (λ p, supported p.2) (dtypes df) →
  set_index_date df = Ok idx →
  let client := mock_client report in
  (get_daily_item_info client item s e
     (save_daily_item_info client item df wd (start w0)).2).1
  = Ok (slice s e (sort_index idx))
  ∧ (get_daily_item_indicator_info client item s e
       (save_daily_item_indicator_info client item df wd (start w0)).2).1
    = Ok (slice s e (sort_index idx)).
Proof.
  intros Hitems Hind Hnd Hsup Hidx client. subst client.
  destruct (SchemaFacts.extract_schema_scalars (dtypes df) Hsup) as (sch & Hsch & Hall).
  assert (_extract_schema (dtypes df) = Ok sch) as Hschema.
  { unfold _extract_schema. by rewrite SchemaFacts.dict_of_series_NoDup. }
  split.
  - destruct (SchemaFacts.extract_dtypes_loop_ok (dtypes df) sch ∅ Hall)
      as (dts & Hdts & _).
    unfold save_daily_item_info, get_daily_item_info.
    destruct (MockFacts.mock_save_fresh report "daily_items"
                (daily_item_table_name item) df wd (start w0) sch Hschema Hitems)
      as (cs & lg & ->).
    cbn [snd warehouse start].
    change (daily_item_table_name item)
      with (shard_name "daily_items" (itemcode item) (market item)).
    rewrite (RoundTripFacts.mock_read_daily report "daily_items" item s e w0 sch
               (rows df) dts cs lg Hitems Hdts).
    by rewrite RoundTripFacts.set_index_date_fetched, Hidx.
  - destruct (SchemaFacts.extract_dtypes_loop_ok (dtypes df) sch ∅ Hall)
      as (dts & Hdts & _).
    unfold save_daily_item_indicator_info, get_daily_item_indicator_info.
    destruct (MockFacts.mock_save_fresh report "daily_items_indicator"
                (daily_item_indicator_table_name item) df wd (start w0) sch
                Hschema Hind)
      as (cs & lg & ->).
    cbn [snd warehouse start].
    change (daily_item_indicator_table_name item)
      with (shard_name "daily_items_indicator" (itemcode item) (market item)).
    rewrite (RoundTripFacts.mock_read_daily report "daily_items_indicator" item s e
               w0 sch (rows df) dts cs lg Hind Hdts).
    by rewrite RoundTripFacts.set_index_date_fetched, Hidx.
Qed.

Lemma saved_shard_reads_back_witness :
  let client := mock_client AtCompletion in
  (get_daily_item_info client kakao (Some (jan 2)) (Some (jan 4))
     (save_daily_item_info client kakao five_days WRITE_EMPTY
        (start shard_with_ten_days)).2).1
  = Ok [(jan 2, [Int 102]); (jan 3, [Int 103]); (jan 4, [Int 104])]
  ∧ (get_daily_item_indicator_info client kakao (Some (jan 2)) (Some (jan 4))
       (save_daily_item_indicator_info client kakao five_days WRITE_EMPTY
          (start shard_with_ten_days)).2).1
    = Ok [(jan 2, [Int 102]); (jan 3, [Int 103]); (jan 4, [Int 104])].
Proof.
  apply (saved_shard_reads_back AtCompletion shard_with_ten_days kakao five_days
           WRITE_EMPTY (Some (jan 2)) (Some (jan 4))
           (map (λ d, (jan d, [Int (Z.of_nat (100 + d))])) [1; 2; 3; 4; 5])).
  - reflexivity.
  - reflexivity.
  - compute_done.
  - compute_done.
  - reflexivity.
Defined.

(** X15. Reference data written is reference data read: against the
    in-memory warehouse, after [save_itemcodes_info] of a frame with
    distinct labels and supported types into a warehouse without the
    reference table, [get_itemcodes_info] returns a frame with the same
    rows and the same column labels in the same order, each column typed
    in the semantic class it was written with. *)
Theorem saved_itemcodes_read_back (report : conflict_report) (w0 : list stored)
    (df : DataFrame) (wd : WriteDisposition) :
  find_table "itemcodes_info" w0 = None →
  NoDup (dtypes df).*1 →
  Forall (λ p, supported p.2) (dtypes df) →
  let client := mock_client report in
  ∃ out,
    (get_itemcodes_info client (save_itemcodes_info client df wd (start w0)).2).1
    = Ok out
    ∧ rows out = rows df
    ∧ (dtypes out).*1 = (dtypes df).*1
    ∧ ∀ c d, (c, d) ∈ dtypes df →
        ∃ d', (c, d') ∈ dtypes out ∧ semantic_of_dtype d' = semantic_of_dtype d.
Proof.
  intros Hfind Hnd Hsup client. subst client.
  destruct (SchemaFacts.extract_schema_scalars (dtypes df) Hsup) as (sch & Hsch & Hall).
  assert (_extract_schema (dtypes df) = Ok sch) as Hschema.
  { unfold _extract_schema. by rewrite SchemaFacts.dict_of_series_NoDup. }
  destruct (SchemaFacts.extract_dtypes_loop_ok (dtypes df) sch ∅ Hall)
    as (dts & Hdts & _ & Hin).
  exists (fetched sch dts (rows df)). split; [|split; [done|split]].
  - unfold save_itemcodes_info.
    destruct (MockFacts.mock_save_fresh report "itemcode" "itemcodes_info" df wd
                (start w0) sch Hschema Hfind) as (cs & lg & ->).
    cbn [snd warehouse start].
    by apply RoundTripFacts.mock_read_itemcodes.
  - by apply MockFacts.fetched_labels.
  - intros c d Hcd. destruct (Hin Hnd c d Hcd) as (ft & Hfw & Hf & Hl).
    destruct (SchemaFacts.forward_backward d ft Hfw) as (sem & d' & Hs & Hb & Hs' & _).
    exists d'. split; [|by rewrite Hs, Hs'].
    unfold fetched. simpl. apply list_elem_of_In, in_map_iff.
    exists (mkField c ft). split; [|by apply list_elem_of_In].
    simpl. by rewrite Hl, Hb.
Qed.

Lemma saved_itemcodes_read_back_witness :
  ∃ out,
    (get_itemcodes_info (mock_client AtSubmission)
       (save_itemcodes_info (mock_client AtSubmission) itemcodes_frame
          WRITE_TRUNCATE (start two_shards)).2).1
    = Ok out
    ∧ rows out = rows itemcodes_frame
    ∧ (dtypes out).*1 = (dtypes itemcodes_frame).*1
    ∧ ∀ c d, (c, d) ∈ dtypes itemcodes_frame →
        ∃ d', (c, d') ∈ dtypes out ∧ semantic_of_dtype d' = semantic_of_dtype d.
Proof.
  apply (saved_itemcodes_read_back AtSubmission two_shards itemcodes_frame
           WRITE_TRUNCATE).
  - reflexivity.
  - compute_done.
  - compute_done.
Defined.

(** X16. The aggregate read of a table that exists: after the probe,
    [get_daily_info_all] submits its one query whatever the schema of the
    table, and maps the schema to local types only then; a field type
    outside the backward table raises its [KeyError] with the query
    already submitted, and otherwise the frame the warehouse builds from
    the query is returned as it is. *)
Theorem aggregate_read_of_present_table {W RowIterator Job : Type}
    (client : Client W RowIterator Job) (w : world W)
    (info_type : string) (codeinfo_df : option (list ItemcodeInfo))
    (s e : option date) (t : Table) (wh1 : W) :
  client_get_table client info_type (warehouse w) = (Ok t, wh1) →
  let sql := read_query info_type codeinfo_df s e in
  let queried := calls w ++ [CallGetTable info_type; CallQuery sql None] in
  get_daily_info_all client info_type codeinfo_df s e w
  = match client_query client sql None wh1 with
    | (Raise ex, wh2) => (Raise ex, mkWorld wh2 queried (log w))
    | (Ok job, wh2) =>
        match _extract_dtypes (Some t) with
        | Raise ex => (Raise ex, mkWorld wh2 queried (log w))
        | Ok dts =>
            match query_to_dataframe client job dts wh2 with
            | (answer, wh3) =>
                (answer, mkWorld wh3 (queried ++ [CallQueryToDataframe]) (log w))
            end
        end
    end.
Proof.
  intros Hget sql queried. run_worker. rewrite Hget. simpl. fold sql.
  destruct (client_query client sql None wh1) as [[job|ex] wh2]; simpl.
  - destruct (extract_dtypes_loop (schema t) ∅) as [dts|ex]; simpl.
    + destruct (query_to_dataframe client job dts wh2) as [[df|ex] wh3]; simpl;
        unfold queried; by rewrite <- !app_assoc.
    + unfold queried. by rewrite <- !app_assoc.
  - unfold queried. by rewrite <- !app_assoc.
Qed.

Lemma aggregate_read_of_present_table_witness :
  get_daily_info_all (answering_client last_date_answer)
    "daily_items_info_005930_KOSPI" None (Some (jan 5)) None (start listed_table)
  = (Raise (KeyError "BOOLEAN"),
     mkWorld listed_table
       [CallGetTable "daily_items_info_005930_KOSPI";
        CallQuery
          (nl +:+ "SELECT *" +:+ nl +:+ "FROM stock.daily_items_info_005930_KOSPI"
           +:+ nl +:+ "WHERE date >= '2024-01-05'" +:+ nl)
          None] []).
Proof.
  rewrite (aggregate_read_of_present_table (answering_client last_date_answer)
             (start listed_table) "daily_items_info_005930_KOSPI" None
             (Some (jan 5)) None
             (mkTable "daily_items_info_005930_KOSPI"
                [mkField "date" "DATE"; mkField "halted" "BOOLEAN"])
             listed_table eq_refl).
  reflexivity.
Defined.
